(** * PostgreSQL persistence components: SQL fragments, CRUD engine, resolver

    A shallow embedding of the Go sources
      - PostgresPersistence (two revisions are in the tree: one builds the
        SQL fragments by reflection, the later one through a JSON round trip),
      - IdentifiablePostgresPersistence,
      - connect/PostgresConnectionResolver.go,
    together with the properties their specification states about them. *)

From Stdlib Require Import ZArith Ascii.
From stdpp Require Import gmap strings list fin_maps.

#[local] Set Warnings "-register-all".
Local Open Scope Z_scope.

(** ** Outcomes of a Go call: a normal return or a panic *)

Inductive outcome (A : Type) : Type :=
| Returns (a : A)
| Panics (reason : string).
Arguments Returns {A} a.
Arguments Panics {A} reason.

Definition outcome_bind {A B} (x : outcome A) (k : A → outcome B) : outcome B :=
  match x with
  | Returns a => k a
  | Panics r => Panics r
  end.

(** ** Strings: the pieces of [strings] and [strconv] the sources call *)

Definition dquote : ascii := "034"%char.
Definition squote : ascii := "039"%char.
Definition comma : ascii := ","%char.

(** The one-character string holding a double quote. *)
Definition dq : string := String dquote EmptyString.

Definition is_empty (s : string) : bool :=
  match s with EmptyString => true | String _ _ => false end.

(** One digit of [strconv.FormatInt]: 0-9 then a-z. *)
Definition digit_char (d : Z) : ascii :=
  if d <? 10 then ascii_of_nat (48 + Z.to_nat d)
  else ascii_of_nat (87 + Z.to_nat d).

Fixpoint format_digits (fuel : nat) (base n : Z) (acc : string) : string :=
  match fuel with
  | O => acc
  | S fuel' =>
      let acc' := String (digit_char (n mod base)) acc in
      if n / base =? 0 then acc' else format_digits fuel' base (n / base) acc'
  end.

(** [strconv.FormatInt(i, base)] for 2 <= base <= 36; a number has at most
    [log2 |i| + 1] digits in any such base. *)
Definition FormatInt (i base : Z) : string :=
  let digits n := format_digits (S (Z.to_nat (Z.log2 n))) base n "" in
  if i <? 0 then "-" +:+ digits (- i) else digits i.

(** [strings.ReplaceAll(s, c, "")] for a one-character [c]. *)
Fixpoint RemoveAll (c : ascii) (s : string) : string :=
  match s with
  | EmptyString => EmptyString
  | String a s' => if Ascii.eqb a c then RemoveAll c s' else String a (RemoveAll c s')
  end.

(** [strings.Split(s, sep)] for a one-character [sep]; the empty string splits
    into one empty piece. *)
Fixpoint Split (sep : ascii) (s : string) : list string :=
  match s with
  | EmptyString => [EmptyString]
  | String a s' =>
      if Ascii.eqb a sep then EmptyString :: Split sep s'
      else match Split sep s' with
           | [] => [String a EmptyString]
           | w :: ws => String a w :: ws
           end
  end.

Fixpoint has_char (c : ascii) (s : string) : bool :=
  match s with
  | EmptyString => false
  | String a s' => Ascii.eqb a c || has_char c s'
  end.

(** ** Values, records and errors *)

Inductive error : Type :=
| ConfigError (code message : string)
| InvalidStateError (code message : string)
| ConnectionError (code message : string)
| WithCause (e cause : error)
| DriverError (message : string).

(** A column value as the driver hands it over, or as a record holds it.
    [VFloat z] is the float64 whose value is the whole number [z]: it is what
    an integer comes back as from [encoding/json]. *)
Inductive value : Type :=
| VNil
| VBool (b : bool)
| VInt (z : Z)
| VFloat (z : Z)
| VStr (s : string)
| VObj (members : list (string * value)).   (* a JSON document column *)

(** The float64 nearest to an integer, ties to the even mantissa: below
    2^53 every integer is a float64, above it the low bits beyond the 53 of
    the mantissa are rounded away.  This is [strconv.ParseFloat] on the
    digits of an integer of Go's integer types. *)
Definition nearest_float64 (z : Z) : Z :=
  let a := Z.abs z in
  if a <? 2 ^ 53 then z else
  let e := Z.log2 a - 52 in
  let q := Z.shiftr a e in
  let r := a - Z.shiftl q e in
  let half := Z.shiftl 1 (e - 1) in
  let q := if (half <? r) || ((r =? half) && Z.odd q) then q + 1 else q in
  Z.sgn z * Z.shiftl q e.

(** [json.Marshal] followed by [json.Unmarshal] into an [interface{}]: every
    number comes back as a float64, documents member by member, and nil,
    booleans and strings (text in UTF-8) as they were. *)
Fixpoint json_round (v : value) : value :=
  match v with
  | VInt z => VFloat (nearest_float64 z)
  | VObj members => VObj (map (λ kv, (kv.1, json_round kv.2)) members)
  | _ => v
  end.

(** An exported struct field: its Go name, the key [encoding/json] gives it
    (the tag, or the name when untagged) and its value.  The keys of a
    struct are pairwise distinct: fields whose keys clash are left out by
    [encoding/json] and are no part of the description. *)
Record field : Type := Field {
  f_name : string;
  f_json : string;
  f_value : value
}.

(** What an [interface{}] argument of the persistence layer can be. *)
Inductive any : Type :=
| AVal (v : value)
| ASlice (l : list value)                (* []interface{} *)
| AStrings (l : list string)             (* []string *)
| AMap (m : gmap string value)           (* map[string]interface{} *)
| AStruct (fs : list field).             (* a struct, or a pointer to one *)

Definition ANil : any := AVal VNil.

Definition value_is_nil (v : value) : bool :=
  match v with VNil => true | _ => false end.

Definition is_nil (a : any) : bool :=
  match a with AVal v => value_is_nil v | _ => false end.

(** What an [interface{}] result slot holds when a call returns: an item
    (possibly nil) or, boxed, an error value. *)
Inductive slot : Type :=
| Item (a : any)
| ErrorValue (e : error).

(** Boxing an [error] interface into [interface{}]: a nil error boxes to nil. *)
Definition box_error (e : option error) : slot :=
  match e with
  | None => Item ANil
  | Some e => ErrorValue e
  end.

(** Go does not fix the order in which [range] visits a map, and two
    traversals of one map need not agree.  A traversal is the list of keys in
    the order it visits them. *)
Definition MapOrder : Type := gmap string value → list string.

Definition fair (o : MapOrder) : Prop :=
  ∀ m, o m ≡ₚ (map_to_list m).*1.

Definition canonical_order : MapOrder := λ m, (map_to_list m).*1.

(** [items[key]] on a map[string]interface{}: nil when the key is missing. *)
Definition map_index (items : gmap string value) (key : string) : value :=
  default VNil (items !! key).

(** ** SQL fragments shared by both revisions *)

(** PostgresPersistence.QuoteIdentifier; the comparison is with the
    apostrophe, as written in the source. *)
Definition QuoteIdentifier (v : string) : string :=
  match v with
  | EmptyString => v
  | String c _ =>
      if Ascii.eqb c squote then v
      else dq +:+ v +:+ dq
  end.

(** The loop body common to the builders: a comma unless the builder is still
    empty, then the piece. *)
Definition write_sep (result piece : string) : string :=
  (if is_empty result then result else result +:+ ",") +:+ piece.

(** [for index := 1; index <= n; index++] writing "$" and the index. *)
Definition param_loop (n : nat) : string :=
  fold_left (λ result index, write_sep result ("$" +:+ FormatInt index 16))
            (map Z.of_nat (seq 1 n)) "".

(** [range] over names with a running index starting at [first]. *)
Fixpoint set_loop (names : list string) (index : Z) (result : string) : string :=
  match names with
  | [] => result
  | column :: rest =>
      set_loop rest (index + 1)
        (write_sep result (QuoteIdentifier column +:+ "=$" +:+ FormatInt index 16))
  end.

Definition columns_loop (names : list string) : string :=
  fold_left (λ result item, write_sep result (QuoteIdentifier item)) names "".


(** ** The driver: rows, pool, and the journal of statements sent *)

(** A [pgx.Rows] cursor: the rows still to be read, each with what [Values()]
    yields on it, the column names, and what [Err()] reports as long as no
    [Values()] has failed. *)
Record Rows : Type := {
  pending : list (list value * option error);
  field_names : list string;
  rows_err : option error
}.

(** A [Values()] that fails closes the cursor: [Next()] is false from then
    on, and [Err()] reports that failure.  [failure_of read] is the failure
    met when [Values()] is called on the rows [read] in turn. *)
Fixpoint failure_of (read : list (list value * option error)) : option error :=
  match read with
  | [] => None
  | (_, Some e) :: _ => Some e
  | (_, None) :: rest => failure_of rest
  end.

(** [Err()] once [Values()] has been called on the rows [read]. *)
Definition Err (qResult : Rows) (read : list (list value * option error))
  : option error :=
  match failure_of read with
  | Some e => Some e
  | None => rows_err qResult
  end.

(** What one [Next()] followed by [Values()] reads: the first row, if any. *)
Definition first_row (qResult : Rows) : list (list value * option error) :=
  firstn 1%nat (pending qResult).

(** A [pgxpool.Pool], by what it answers to a statement and its arguments. *)
Definition Pool : Type := string → list value → Rows * option error.

Definition Stmt : Type := string * list value.

(** A computation that may panic and that sends statements to the pool. *)
Definition Exec (A : Type) : Type := list Stmt → outcome A * list Stmt.

Definition panic {A} (reason : string) : Exec A := λ j, (Panics reason, j).
Definition lift {A} (o : outcome A) : Exec A := λ j, (o, j).

#[global] Instance Exec_ret : MRet Exec := λ A a j, (Returns a, j).
#[global] Instance Exec_bind : MBind Exec := λ A B k m j,
  match m j with
  | (Returns a, j') => k a j'
  | (Panics r, j') => (Panics r, j')
  end.

(** [client.Query(ctx, query, args...)]; a nil pool panics. *)
Definition Query (client : option Pool) (query : string) (args : list value)
  : Exec (Rows * option error) :=
  match client with
  | None => panic "nil pointer dereference"
  | Some pool => λ j, (Returns (pool query args), j ++ [(query, args)])
  end.

Definition run {A} (m : Exec A) : outcome A * list Stmt := m [].

(** [buf[column.Name] = values[index]] for every column; short rows panic. *)
Fixpoint row_buffer (cols : list string) (values : list value)
  (buf : gmap string value) : outcome (gmap string value) :=
  match cols with
  | [] => Returns buf
  | col :: cols' =>
      match values with
      | [] => Panics "index out of range"
      | v :: values' => row_buffer cols' values' (<[col := v]> buf)
      end
  end.

Fixpoint assoc (key : string) (members : list (string * value)) : value :=
  match members with
  | [] => VNil
  | (k, v) :: rest => if String.eqb k key then v else assoc key rest
  end.

(** [math/rand.Int63n(n)] on the draw [r] of the generator: it panics unless
    [n] is positive. *)
Definition Int63n (r n : Z) : outcome Z :=
  if n <=? 0 then Panics "invalid argument to Int63n" else Returns (r mod n).

(** What the runtime decides for a call: the order of each [range] over a
    map, numbered as the call reaches them, and the random generator's draw. *)
Record Runtime : Type := {
  range_order : nat → MapOrder;
  draw : Z
}.

Record DataPage : Type := NewDataPage {
  Total : option Z;
  Data : list any
}.

(** ** Collaborators outside the repository *)

(** The pip-services commons and data packages (configuration, paging,
    converters, object ids) and the JSON decoding of a row into the
    prototype type are not part of this repository: the components are
    parametrised by them. *)
Class Commons : Type := {
  ConfigParams : Type;
  References : Type;
  Prototype : Type;
  PagingParams : Type;
  SetDefaults : ConfigParams → ConfigParams → ConfigParams;
  GetAsStringWithDefault : ConfigParams → string → string → string;
  GetAsIntegerWithDefault : ConfigParams → string → Z → Z;
  NewEmptyPagingParams : PagingParams;
  GetSkip : PagingParams → Z → Z;
  GetTake : PagingParams → Z → Z;
  PagingTotal : PagingParams → bool;
  ToLong : value → Z;
  CloneObject : any → any;
  GenerateObjectId : any → any;
  GetObjectId : any → value;
  (* json.Marshal(buf), json.Unmarshal into a new prototype object, dereference *)
  Decode : Prototype → gmap string value → any
}.

(** PostgresConnection, the component that owns the pool, by its interface. *)
Class ConnectionApi `{Commons} (Conn : Type) : Type := {
  NewPostgresConnection : Conn;
  conn_Configure : Conn → ConfigParams → Conn;
  conn_SetReferences : Conn → References → Conn;
  conn_Open : Conn → string → Conn * option error;
  conn_Close : Conn → string → Conn * option error;
  conn_IsOpen : Conn → bool;
  conn_GetConnection : Conn → option Pool;
  conn_GetDatabaseName : Conn → string
}.

(** The type assertions of the sources on an [interface{}]. *)
Definition as_string (a : any) : option string :=
  match a with AVal (VStr s) => Some s | _ => None end.

Definition as_map (a : any) : option (gmap string value) :=
  match a with
  | AMap m => Some m
  | AVal (VObj members) => Some (list_to_map members)
  | _ => None
  end.

Definition value_as_map (v : value) : option (list (string * value)) :=
  match v with VObj members => Some members | _ => None end.

(** [if x != nil { if s, ok := x.(string); ok && s != "" { ... } }]: the
    non-empty string an optional clause argument carries, if any. *)
Definition clause_text (a : any) : option string :=
  match as_string a with
  | Some s => if is_empty s then None else Some s
  | None => None
  end.

(** [val[0] == name] between an [interface{}] and a string. *)
Definition first_is (vals : list value) (name : string) : bool :=
  match vals with
  | VStr s :: _ => String.eqb s name
  | _ => false
  end.

(** [rows.Values()] on the current row: no values come with an error. *)
Definition read_values (current : list value * option error)
  : list value * option error :=
  match current with
  | (_, Some e) => ([], Some e)
  | (values, None) => (values, None)
  end.

(** [if len(rows) == 1 { count = f(rows[0]) }] with [count] starting at 0. *)
Definition single (rows : list value) (f : value → Z) : Z :=
  match rows with
  | [v] => f v
  | _ => 0
  end.

(** [query += " WHERE " + flt] under the guard of [clause_text]. *)
Definition add_clause (query keyword : string) (clause : option string) : string :=
  match clause with
  | Some text => query +:+ keyword +:+ text
  | None => query
  end.

(** An [error] as the engine returns it from Clear: one built with
    [errors.New], or one of the typed errors above. *)
Inductive failure : Type :=
| Plain (message : string)
| Typed (e : error).

(** The order of a [range] over a map[string]string. *)
Definition KeyOrder : Type := gmap string string → list string.

Definition fair_keys (o : KeyOrder) : Prop :=
  ∀ m, o m ≡ₚ (map_to_list m).*1.

Definition canonical_keys : KeyOrder := λ m, (map_to_list m).*1.

(** [options[key]] after [if options == nil { options = make(...) }]: the
    empty string when the map or the key is missing. *)
Definition option_of (options : option (gmap string string)) (key : string)
  : string :=
  default "" (default ∅ options !! key).

(** ** PostgresPersistence, the revision that builds fragments from a JSON map *)

Module Json.

(** convertToMap: [json.Marshal] then [json.Unmarshal] into a
    map[string]interface{}.  Only objects survive; JSON null leaves a nil map
    and every other shape is an unmarshalling error, logged, with nil
    returned.  A struct contributes its fields under their JSON keys, and
    every value is what the round trip through JSON makes of it. *)
Definition convertToMap (values : any) : option (gmap string value) :=
  match values with
  | AStruct fs =>
      Some (json_round <$> list_to_map (map (λ f, (f_json f, f_value f)) fs))
  | _ => fmap (M := option) (fmap json_round) (as_map values)
  end.

Definition GenerateColumns (o : MapOrder) (values : any) : string :=
  match convertToMap values with
  | None => ""
  | Some items => columns_loop (o items)
  end.

Definition GenerateParameters (values : any) : string :=
  match values with
  | ASlice val => param_loop (length val)
  | _ =>
      match convertToMap values with
      | None => ""
      | Some items => param_loop (size items)
      end
  end.

(** The loop of GenerateSetParameters: both builders take their comma when
    [result] is non-empty. *)
Fixpoint set_columns_loop (names : list string) (index : Z) (result col : string)
  : string * string :=
  match names with
  | [] => (result, col)
  | column :: rest =>
      let started := negb (is_empty result) in
      let result1 := if started then result +:+ "," else result in
      let col1 := if started then col +:+ "," else col in
      set_columns_loop rest (index + 1)
        (result1 +:+ (QuoteIdentifier column +:+ "=$" +:+ FormatInt index 16))
        (col1 +:+ QuoteIdentifier column)
  end.

Definition GenerateSetParameters (o : MapOrder) (values : any) : string * string :=
  match convertToMap values with
  | None => ("", "")
  | Some items => set_columns_loop (o items) 1 "" ""
  end.

Definition GenerateValues (columns : string) (values : any) : outcome (list value) :=
  match convertToMap values with
  | None => Returns []
  | Some items =>
      if is_empty columns
      then Panics "GenerateValues: Columns must be set for properly convert"
      else Returns (map (map_index items) (Split comma (RemoveAll dquote columns)))
  end.

Section Engine.
Context `{Commons} {Conn : Type} `{!ConnectionApi Conn}.

Record PostgresPersistence : Type := {
  defaultConfig : ConfigParams;
  config : option ConfigParams;
  references : option References;
  opened : bool;
  localConnection : bool;
  autoObjects : list string;
  ConvertFromPublic : any → any;
  ConvertToPublic : Prototype → Rows → list value * option error → outcome any;
  ConvertFromPublicPartial : any → any;
  Connection : option Conn;
  Client : option Pool;
  DatabaseName : string;
  TableName : string;
  MaxPageSize : Z;
  Proto : Prototype
}.

Definition with_lifecycle (c : PostgresPersistence) (o l : bool)
  (conn : option Conn) (cl : option Pool) (db : string) : PostgresPersistence :=
  {| defaultConfig := defaultConfig c; config := config c;
     references := references c; opened := o; localConnection := l;
     autoObjects := autoObjects c; ConvertFromPublic := ConvertFromPublic c;
     ConvertToPublic := ConvertToPublic c;
     ConvertFromPublicPartial := ConvertFromPublicPartial c;
     Connection := conn; Client := cl; DatabaseName := db;
     TableName := TableName c; MaxPageSize := MaxPageSize c; Proto := Proto c |}.

Definition set_opened (c : PostgresPersistence) (o : bool) :=
  with_lifecycle c o (localConnection c) (Connection c) (Client c) (DatabaseName c).
Definition set_localConnection (c : PostgresPersistence) (l : bool) :=
  with_lifecycle c (opened c) l (Connection c) (Client c) (DatabaseName c).
Definition set_Connection (c : PostgresPersistence) (conn : option Conn) :=
  with_lifecycle c (opened c) (localConnection c) conn (Client c) (DatabaseName c).
Definition set_Client (c : PostgresPersistence) (cl : option Pool) :=
  with_lifecycle c (opened c) (localConnection c) (Connection c) cl (DatabaseName c).
Definition set_DatabaseName (c : PostgresPersistence) (db : string) :=
  with_lifecycle c (opened c) (localConnection c) (Connection c) (Client c) db.

Definition set_settings (c : PostgresPersistence) (cfg : option ConfigParams)
  (table : string) (page : Z) : PostgresPersistence :=
  {| defaultConfig := defaultConfig c; config := cfg;
     references := references c; opened := opened c;
     localConnection := localConnection c;
     autoObjects := autoObjects c; ConvertFromPublic := ConvertFromPublic c;
     ConvertToPublic := ConvertToPublic c;
     ConvertFromPublicPartial := ConvertFromPublicPartial c;
     Connection := Connection c; Client := Client c;
     DatabaseName := DatabaseName c;
     TableName := table; MaxPageSize := page; Proto := Proto c |}.

(** PerformConvertToPublic: the current row as an object of the prototype. *)
Definition PerformConvertToPublic (proto : Prototype) (rows : Rows)
  (current : list value * option error) : outcome any :=
  match current with
  | (_, Some _) => Returns ANil
  | (values, None) =>
      outcome_bind (row_buffer (field_names rows) values ∅)
                   (λ buf, Returns (Decode proto buf))
  end.

Definition PerformConvertFromPublic (v : any) : any := v.

Definition NewPostgresPersistence (defaults : ConfigParams) (proto : Prototype)
  (tableName : string) : PostgresPersistence :=
  {| defaultConfig := defaults; config := None; references := None;
     opened := false; localConnection := false; autoObjects := [];
     ConvertFromPublic := PerformConvertFromPublic;
     ConvertToPublic := PerformConvertToPublic;
     ConvertFromPublicPartial := PerformConvertFromPublic;
     Connection := None; Client := None; DatabaseName := "";
     TableName := tableName; MaxPageSize := 100; Proto := proto |}.

Definition Configure (c : PostgresPersistence) (cfg : ConfigParams)
  : PostgresPersistence :=
  let cfg := SetDefaults cfg (defaultConfig c) in
  let table := GetAsStringWithDefault cfg "collection" (TableName c) in
  let table := GetAsStringWithDefault cfg "table" table in
  let page := GetAsIntegerWithDefault cfg "options.max_page_size" (MaxPageSize c) in
  set_settings c (Some cfg) table page.

Definition createConnection (c : PostgresPersistence) : Conn :=
  let connection := NewPostgresConnection in
  let connection :=
    match config c with
    | Some cfg => conn_Configure connection cfg
    | None => connection
    end in
  match references c with
  | Some refs => conn_SetReferences connection refs
  | None => connection
  end.

Definition IsOpen (c : PostgresPersistence) : bool := opened c.

(** The statements of [autoObjects], one after the other; a failing one is
    logged and the loop goes on. *)
Fixpoint create_objects (client : option Pool) (dmls : list string) : Exec unit :=
  match dmls with
  | [] => mret tt
  | dml :: rest => _ ← Query client dml []; create_objects client rest
  end.

Definition AutoCreateObjects (c : PostgresPersistence) (correlationId : string)
  : Exec (option error) :=
  if bool_decide (length (autoObjects c) = 0%nat) then mret None else
  let query := "SELECT to_regclass('" +:+ TableName c +:+ "')" in
  '(qResult, qErr) ← Query (Client c) query [];
  match qErr with
  | Some e => mret (Some e)
  | None =>
      let create := (_ ← create_objects (Client c) (autoObjects c);
                     mret (rows_err qResult)) in
      match pending qResult with
      | (_, Some cErr) :: _ => mret (Some cErr)
      | (val, None) :: _ =>
          if bool_decide (0 < length val)%nat && first_is val (TableName c)
          then mret None
          else create
      | [] => create
      end
  end.

Definition Open (c : PostgresPersistence) (correlationId : string)
  : Exec (PostgresPersistence * option error) :=
  if opened c then mret (c, None) else
  let c := match Connection c with
           | None => set_localConnection
                       (set_Connection c (Some (createConnection c))) true
           | Some _ => c
           end in
  '(c, err) ← (if localConnection c
               then match Connection c with
                    | Some conn =>
                        let '(conn, e) := conn_Open conn correlationId in
                        mret (set_Connection c (Some conn), e)
                    | None => panic "nil pointer dereference"
                    end
               else mret (c, None));
  let err := match err, Connection c with
             | None, None =>
                 Some (InvalidStateError "NO_CONNECTION" "PostgreSQL connection is missing")
             | _, _ => err
             end in
  err ← match err, Connection c with
        | None, Some conn =>
            mret (if conn_IsOpen conn then None
                  else Some (ConnectionError "CONNECT_FAILED"
                               "PostgreSQL connection is not opened"))
        | None, None => panic "nil pointer dereference"
        | Some e, _ => mret (Some e)
        end;
  let c := set_opened c false in
  match err, Connection c with
  | Some e, _ => mret (c, Some e)
  | None, None => panic "nil pointer dereference"
  | None, Some conn =>
      let c := set_Client c (conn_GetConnection conn) in
      let c := set_DatabaseName c (conn_GetDatabaseName conn) in
      err ← AutoCreateObjects c correlationId;
      match err with
      | Some cause =>
          mret (set_Client c None,
                Some (WithCause (ConnectionError "CONNECT_FAILED"
                                   "Connection to postgres failed") cause))
      | None => mret (set_opened c true, None)
      end
  end.

Definition Close (c : PostgresPersistence) (correlationId : string)
  : PostgresPersistence * option error :=
  if negb (opened c) then (c, None) else
  match Connection c with
  | None => (c, Some (InvalidStateError "NO_CONNECTION" "Postgres connection is missing"))
  | Some conn =>
      let '(c, err) := if localConnection c
                       then let '(conn, e) := conn_Close conn correlationId in
                            (set_Connection c (Some conn), e)
                       else (c, None) in
      match err with
      | Some e => (c, Some e)
      | None => (set_Client (set_opened c false) None, None)
      end
  end.

(** [for qResult.Next() { items = append(items, c.ConvertToPublic(qResult)) }]:
    the converter calls [Values()], and when that fails the cursor is closed,
    so the item appended for that row is the last. *)
Fixpoint convert_all (c : PostgresPersistence) (qResult : Rows)
  (rest : list (list value * option error)) : outcome (list any) :=
  match rest with
  | [] => Returns []
  | current :: rest' =>
      outcome_bind (ConvertToPublic c (Proto c) qResult (read_values current))
        (λ item,
           match current.2 with
           | Some _ => Returns [item]
           | None => outcome_bind (convert_all c qResult rest')
                       (λ items, Returns (item :: items))
           end)
  end.

Definition GetPageByFilter (c : PostgresPersistence) (correlationId : string)
  (filter : any) (paging : option PagingParams) (sort sel : any)
  : Exec (option DataPage * option error) :=
  let query := "SELECT * FROM " +:+ QuoteIdentifier (TableName c) in
  let query := match clause_text sel with
               | Some slct =>
                   "SELECT " +:+ slct +:+ " FROM " +:+ QuoteIdentifier (TableName c)
               | None => query
               end in
  let paging := default NewEmptyPagingParams paging in
  let skip := GetSkip paging (-1) in
  let take := GetTake paging (MaxPageSize c) in
  let pagingEnabled := PagingTotal paging in
  let query := add_clause query " WHERE " (clause_text filter) in
  let query := add_clause query " ORDER BY " (clause_text sort) in
  let query := if 0 <=? skip then query +:+ " OFFSET " +:+ FormatInt skip 10
               else query in
  let query := query +:+ " LIMIT " +:+ FormatInt take 10 in
  '(qResult, qErr) ← Query (Client c) query [];
  match qErr with
  | Some e => mret (None, Some e)
  | None =>
      items ← lift (convert_all c qResult (pending qResult));
      if pagingEnabled then
        let query := "SELECT COUNT(*) AS count FROM "
                     +:+ QuoteIdentifier (TableName c) in
        let query := if is_nil filter then query
                     else add_clause query " WHERE " (clause_text sel) in
        '(qResult2, qErr2) ← Query (Client c) query [];
        match qErr2 with
        | Some e => mret (None, Some e)
        | None =>
            let count := match pending qResult2 with
                         | current :: _ => single (read_values current).1 ToLong
                         | [] => 0
                         end in
            mret (Some (NewDataPage (Some count) items),
                  Err qResult2 (first_row qResult2))
        end
      else mret (Some (NewDataPage (Some 0) items), Err qResult (pending qResult))
  end.

Definition GetOneRandom (rt : Runtime) (c : PostgresPersistence)
  (correlationId : string) (filter : any) : Exec (any * option error) :=
  let query := "SELECT COUNT(*) AS count FROM " +:+ QuoteIdentifier (TableName c) in
  let query := add_clause query " WHERE " (clause_text filter) in
  '(qResult, qErr) ← Query (Client c) query [];
  match qErr with
  | Some e => mret (ANil, Some e)
  | None =>
      let query := "SELECT * FROM " +:+ QuoteIdentifier (TableName c) in
      let query := add_clause query " WHERE " (clause_text filter) in
      match pending qResult with
      | [] => mret (ANil, rows_err qResult)
      | current :: _ =>
          let count :=
            single (read_values current).1
              (λ v, match value_as_map v with
                    | Some row => ToLong (assoc "count" row)
                    | None => 0
                    end) in
          pos ← lift (Int63n (draw rt) count);
          let query := query +:+ " OFFSET " +:+ FormatInt pos 10 +:+ " LIMIT 1" in
          '(qResult2, qErr2) ← Query (Client c) query [];
          match qErr2 with
          | Some _ => mret (ANil, qErr)
          | None =>
              match pending qResult2 with
              | [] => mret (ANil, rows_err qResult2)
              | current2 :: _ =>
                  item ← lift (ConvertToPublic c (Proto c) qResult2
                                 (read_values current2));
                  mret (item, None)
              end
          end
      end
  end.

Definition Create (rt : Runtime) (c : PostgresPersistence)
  (correlationId : string) (item : any) : Exec (any * option error) :=
  if is_nil item then mret (ANil, None) else
  let row := ConvertFromPublic c item in
  let columns := GenerateColumns (range_order rt 0) row in
  let params := GenerateParameters row in
  values ← lift (GenerateValues columns row);
  let query := "INSERT INTO " +:+ QuoteIdentifier (TableName c)
               +:+ " (" +:+ columns +:+ ") VALUES (" +:+ params
               +:+ ") RETURNING *" in
  '(qResult, qErr) ← Query (Client c) query values;
  match qErr with
  | Some e => mret (ANil, Some e)
  | None =>
      match pending qResult with
      | [] => mret (ANil, rows_err qResult)
      | current :: _ =>
          item ← lift (ConvertToPublic c (Proto c) qResult (read_values current));
          mret (item, None)
      end
  end.

Definition set_registry (c : PostgresPersistence) (refs : option References)
  (objects : list string) : PostgresPersistence :=
  {| defaultConfig := defaultConfig c; config := config c;
     references := refs; opened := opened c;
     localConnection := localConnection c;
     autoObjects := objects; ConvertFromPublic := ConvertFromPublic c;
     ConvertToPublic := ConvertToPublic c;
     ConvertFromPublicPartial := ConvertFromPublicPartial c;
     Connection := Connection c; Client := Client c;
     DatabaseName := DatabaseName c;
     TableName := TableName c; MaxPageSize := MaxPageSize c; Proto := Proto c |}.

(** SetReferences, given what the dependency resolver finds under
    "connection" when it is a [*PostgresConnection] ([dep]); the logger and
    the resolver themselves keep no state the engine reads. *)
Definition SetReferences (c : PostgresPersistence) (refs : option References)
  (dep : option Conn) : PostgresPersistence :=
  let c := set_registry c refs (autoObjects c) in
  let c := match dep with
           | Some d => set_Connection c (Some d)
           | None => c
           end in
  match Connection c with
  | None => set_localConnection (set_Connection c (Some (createConnection c))) true
  | Some _ => set_localConnection c false
  end.

Definition UnsetReferences (c : PostgresPersistence) : PostgresPersistence :=
  set_Connection c None.

Definition AutoCreateObject (c : PostgresPersistence) (dmlStatement : string)
  : PostgresPersistence :=
  set_registry c (references c) (autoObjects c ++ [dmlStatement]).

(** The loop of EnsureIndex over the keys: the names are written as given,
    and every direction other than "1" is descending. *)
Fixpoint index_fields (keys : gmap string string) (order : list string)
  (fields : string) : string :=
  match order with
  | [] => fields
  | key :: rest =>
      let fields := if is_empty fields then fields else fields +:+ ", " in
      let fields := fields +:+ key in
      let asc := default "" (keys !! key) in
      let fields := if String.eqb asc "1" then fields else fields +:+ " DESC" in
      index_fields keys rest fields
  end.

Definition EnsureIndex (ko : KeyOrder) (c : PostgresPersistence) (name : string)
  (keys : gmap string string) (options : option (gmap string string))
  : PostgresPersistence :=
  let builder := "CREATE" in
  let builder := if is_empty (option_of options "unique") then builder
                 else builder +:+ " UNIQUE" in
  let builder := builder +:+ " INDEX IF NOT EXISTS " +:+ name +:+ " ON "
                 +:+ QuoteIdentifier (TableName c) in
  let builder := if is_empty (option_of options "type") then builder
                 else builder +:+ " " +:+ option_of options "type" in
  let fields := index_fields keys (ko keys) "" in
  let builder := builder +:+ "(" +:+ fields +:+ ")" in
  AutoCreateObject c builder.

Definition PerformConvertFromPublicPartial (c : PostgresPersistence) (v : any)
  : any :=
  ConvertFromPublic c v.

Definition Clear (c : PostgresPersistence) (correlationId : string)
  : Exec (option failure) :=
  if is_empty (TableName c) then mret (Some (Plain "Table name is not defined"))
  else
    let query := "DELETE FROM " +:+ QuoteIdentifier (TableName c) in
    '(qResult, err) ← Query (Client c) query [];
    mret (match err with
          | Some cause =>
              Some (Typed (WithCause (ConnectionError "CONNECT_FAILED"
                                        "Connection to postgres failed") cause))
          | None => None
          end).

Definition GetCountByFilter (c : PostgresPersistence) (correlationId : string)
  (filter : any) : Exec (Z * option error) :=
  let query := "SELECT COUNT(*) AS count FROM " +:+ QuoteIdentifier (TableName c) in
  let query := add_clause query " WHERE " (clause_text filter) in
  '(qResult, qErr) ← Query (Client c) query [];
  match qErr with
  | Some e => mret (0, Some e)
  | None =>
      let count := match pending qResult with
                   | current :: _ => single (read_values current).1 ToLong
                   | [] => 0
                   end in
      mret (count, Err qResult (first_row qResult))
  end.

Definition GetListByFilter (c : PostgresPersistence) (correlationId : string)
  (filter sort sel : any) : Exec (list any * option error) :=
  let query := "SELECT * FROM " +:+ QuoteIdentifier (TableName c) in
  let query := match clause_text sel with
               | Some slct =>
                   "SELECT " +:+ slct +:+ " FROM " +:+ QuoteIdentifier (TableName c)
               | None => query
               end in
  let query := add_clause query " WHERE " (clause_text filter) in
  let query := add_clause query " ORDER BY " (clause_text sort) in
  '(qResult, qErr) ← Query (Client c) query [];
  match qErr with
  | Some e => mret ([], Some e)
  | None =>
      items ← lift (convert_all c qResult (pending qResult));
      mret (items, Err qResult (pending qResult))
  end.

Definition DeleteByFilter (c : PostgresPersistence) (correlationId : string)
  (filter : string) : Exec (option error) :=
  let query := "DELETE FROM " +:+ QuoteIdentifier (TableName c) in
  let query := if is_empty filter then query else query +:+ " WHERE " +:+ filter in
  '(qResult, qErr) ← Query (Client c) query [];
  match qErr with
  | Some e => mret (Some e)
  | None =>
      match pending qResult with
      | [] => mret (rows_err qResult)
      | _ :: _ => mret None
      end
  end.

End Engine.
End Json.

(** ** PostgresPersistence, the revision that builds fragments by reflection *)

Module Reflect.

(** [reflect.TypeOf(values).Kind()] is called on every path that is not one
    of the asserted types; on a nil interface the type is nil and the call
    panics. *)
Definition kind_probe (values : any) : outcome unit :=
  if is_nil values then Panics "nil pointer dereference" else Returns tt.

(** [reflect.ValueOf(values)], dereferenced when a pointer, then [NumField]
    and [Field(i)]: only a struct has fields. *)
Definition struct_fields (values : any) : outcome (list field) :=
  match values with
  | AStruct fs => Returns fs
  | _ => Panics "reflect: call of reflect.Value.NumField on non-struct Value"
  end.

Definition GenerateColumns (o : MapOrder) (values : any) : outcome string :=
  match values with
  | AStrings val => Returns (columns_loop val)
  | _ =>
      outcome_bind (kind_probe values) (λ _,
        match as_map values with
        | Some val => Returns (columns_loop (o val))
        | None =>
            outcome_bind (struct_fields values) (λ fs,
              Returns (columns_loop (map f_name fs)))
        end)
  end.

Definition generateParamString (paramNum : nat) : string := param_loop paramNum.

Definition GenerateParameters (values : any) : outcome string :=
  match values with
  | ASlice val => Returns (generateParamString (length val))
  | _ =>
      outcome_bind (kind_probe values) (λ _,
        match as_map values with
        | Some val => Returns (generateParamString (size val))
        | None =>
            outcome_bind (struct_fields values) (λ fs,
              Returns (generateParamString (length fs)))
        end)
  end.

Definition GenerateSetParameters (o : MapOrder) (values : any) : outcome string :=
  match values with
  | AStrings val => Returns (set_loop val 1 "")
  | _ =>
      outcome_bind (kind_probe values) (λ _,
        match as_map values with
        | Some val => Returns (set_loop (o val) 1 "")
        | None =>
            outcome_bind (struct_fields values) (λ fs,
              Returns (set_loop (map f_name fs) 1 ""))
        end)
  end.

(** The values of a map come from a [range] of their own. *)
Definition GenerateValues (o : MapOrder) (values : any) : outcome (list value) :=
  match as_map values with
  | Some val => Returns (map (map_index val) (o val))
  | None =>
      outcome_bind (kind_probe values) (λ _,
        outcome_bind (struct_fields values) (λ fs,
          Returns (map f_value fs)))
  end.

Section Engine.
Context `{Commons}.

Record PostgresPersistence : Type := {
  defaultConfig : ConfigParams;
  config : option ConfigParams;
  opened : bool;
  localConnection : bool;
  autoObjects : list string;
  Client : option Pool;
  DatabaseName : string;
  TableName : string;
  MaxPageSize : Z;
  Proto : Prototype
}.

(** NewPostgresPersistence, on the fields kept here (the lifecycle is
    modelled on the later revision, the two files agree on it). *)
Definition NewPostgresPersistence (defaults : ConfigParams) (proto : Prototype)
  (tableName : string) : PostgresPersistence :=
  {| defaultConfig := defaults; config := None;
     opened := false; localConnection := false; autoObjects := [];
     Client := None; DatabaseName := ""; TableName := tableName;
     MaxPageSize := 100; Proto := proto |}.

Definition Configure (c : PostgresPersistence) (cfg : ConfigParams)
  : PostgresPersistence :=
  let cfg := SetDefaults cfg (defaultConfig c) in
  let table := GetAsStringWithDefault cfg "collection" (TableName c) in
  let table := GetAsStringWithDefault cfg "table" table in
  let page := GetAsIntegerWithDefault cfg "options.max_page_size" (MaxPageSize c) in
  {| defaultConfig := defaultConfig c; config := Some cfg;
     opened := opened c; localConnection := localConnection c;
     autoObjects := autoObjects c; Client := Client c;
     DatabaseName := DatabaseName c; TableName := table;
     MaxPageSize := page; Proto := Proto c |}.

Definition ConvertToPublic (v : any) : any := v.
Definition ConvertFromPublic (v : any) : any := v.

(** ConvertFromRows; ConvertResultToPublic and NewObjectByPrototype are the
    two halves of the decoding into the prototype. *)
Definition ConvertFromRows (c : PostgresPersistence) (cols : list string)
  (rows : list value) : outcome any :=
  outcome_bind (row_buffer cols rows ∅) (λ buf, Returns (Decode (Proto c) buf)).

(** [for qResult.Next() { rows, vErr := qResult.Values(); if vErr != nil
    { continue }; items = append(items, c.ConvertFromRows(...)) }]: the
    failed [Values()] has closed the cursor, so the [continue] meets a
    [Next()] that is false and the loop is over. *)
Fixpoint convert_all (c : PostgresPersistence) (qResult : Rows)
  (rest : list (list value * option error)) : outcome (list any) :=
  match rest with
  | [] => Returns []
  | current :: rest' =>
      match read_values current with
      | (_, Some _) => Returns []
      | (rows, None) =>
          outcome_bind (ConvertFromRows c (field_names qResult) rows)
            (λ item, outcome_bind (convert_all c qResult rest')
                       (λ items, Returns (item :: items)))
      end
  end.

Definition GetPageByFilter (c : PostgresPersistence) (correlationId : string)
  (filter : any) (paging : option PagingParams) (sort sel : any)
  : Exec (option DataPage * option error) :=
  let query := "SELECT * FROM " +:+ QuoteIdentifier (TableName c) in
  let query := match clause_text sel with
               | Some slct =>
                   "SELECT " +:+ slct +:+ " FROM " +:+ QuoteIdentifier (TableName c)
               | None => query
               end in
  let paging := default NewEmptyPagingParams paging in
  let skip := GetSkip paging (-1) in
  let take := GetTake paging (MaxPageSize c) in
  let pagingEnabled := PagingTotal paging in
  let query := add_clause query " WHERE " (clause_text filter) in
  let query := add_clause query " ORDER BY " (clause_text sort) in
  let query := if 0 <=? skip then query +:+ " OFFSET " +:+ FormatInt skip 10
               else query in
  let query := query +:+ " LIMIT " +:+ FormatInt take 10 in
  '(qResult, qErr) ← Query (Client c) query [];
  match qErr with
  | Some e => mret (None, Some e)
  | None =>
      items ← lift (convert_all c qResult (pending qResult));
      if pagingEnabled then
        let query := "SELECT COUNT(*) AS count FROM "
                     +:+ QuoteIdentifier (TableName c) in
        let query := if is_nil filter then query
                     else add_clause query " WHERE " (clause_text sel) in
        '(result, qErr) ← Query (Client c) query [];
        match qErr with
        | Some e => mret (None, Some e)
        | None =>
            let count := match pending result with
                         | current :: _ => single (read_values current).1 ToLong
                         | [] => 0
                         end in
            mret (Some (NewDataPage (Some count) items), None)
        end
      else mret (Some (NewDataPage (Some 0) items), None)
  end.

Definition GetOneRandom (rt : Runtime) (c : PostgresPersistence)
  (correlationId : string) (filter : any) : Exec (any * option error) :=
  let query := "SELECT COUNT(*) AS count FROM " +:+ QuoteIdentifier (TableName c) in
  let query := add_clause query " WHERE " (clause_text filter) in
  '(result, qErr) ← Query (Client c) query [];
  match qErr with
  | Some e => mret (ANil, Some e)
  | None =>
      let query := "SELECT * FROM " +:+ QuoteIdentifier (TableName c) in
      let query := add_clause query " WHERE " (clause_text filter) in
      let count :=
        match pending result with
        | current :: _ =>
            single (read_values current).1
              (λ v, match value_as_map v with
                    | Some row => ToLong (assoc "count" row)
                    | None => 0
                    end)
        | [] => 0
        end in
      pos ← lift (Int63n (draw rt) count);
      let query := query +:+ " OFFSET " +:+ FormatInt pos 10 +:+ " LIMIT 1" in
      '(result, qErr) ← Query (Client c) query [];
      match qErr with
      | Some e => mret (ANil, Some e)
      | None =>
          match pending result with
          | current :: _ =>
              match read_values current with
              | (rows, None) =>
                  item ← lift (ConvertFromRows c (field_names result) rows);
                  mret (item, None)
              | (_, Some vErr) => mret (ANil, Some vErr)
              end
          | [] => mret (ANil, None)
          end
      end
  end.

Definition Create (rt : Runtime) (c : PostgresPersistence)
  (correlationId : string) (item : any) : Exec (slot * option error) :=
  if is_nil item then mret (Item ANil, None) else
  let row := ConvertFromPublic item in
  columns ← lift (GenerateColumns (range_order rt 0) row);
  params ← lift (GenerateParameters row);
  values ← lift (GenerateValues (range_order rt 1) row);
  let query := "INSERT INTO " +:+ QuoteIdentifier (TableName c)
               +:+ " (" +:+ columns +:+ ") VALUES (" +:+ params
               +:+ ") RETURNING *" in
  '(results, qErr) ← Query (Client c) query values;
  match qErr, pending results with
  | None, current :: _ =>
      match read_values current with
      | (_, Some vErr) => mret (Item ANil, Some vErr)
      | (rows, None) =>
          item ← lift (ConvertFromRows c (field_names results) rows);
          mret (Item item, None)
      end
  | _, _ => mret (Item ANil, qErr)
  end.

Definition AutoCreateObject (c : PostgresPersistence) (dmlStatement : string)
  : PostgresPersistence :=
  {| defaultConfig := defaultConfig c; config := config c;
     opened := opened c; localConnection := localConnection c;
     autoObjects := autoObjects c ++ [dmlStatement]; Client := Client c;
     DatabaseName := DatabaseName c; TableName := TableName c;
     MaxPageSize := MaxPageSize c; Proto := Proto c |}.

(** The loop of EnsureIndex in this revision: the names are quoted, and
    every non-empty direction is descending. *)
Fixpoint index_fields (keys : gmap string string) (order : list string)
  (fields : string) : string :=
  match order with
  | [] => fields
  | key :: rest =>
      let fields := if is_empty fields then fields else fields +:+ ", " in
      let fields := fields +:+ QuoteIdentifier key in
      let asc := default "" (keys !! key) in
      let fields := if is_empty asc then fields else fields +:+ " DESC" in
      index_fields keys rest fields
  end.

Definition EnsureIndex (ko : KeyOrder) (c : PostgresPersistence) (name : string)
  (keys : gmap string string) (options : option (gmap string string))
  : PostgresPersistence :=
  let builder := "CREATE" in
  let builder := if is_empty (option_of options "unique") then builder
                 else builder +:+ " UNIQUE" in
  let builder := builder +:+ " INDEX IF NOT EXISTS " +:+ name +:+ " ON "
                 +:+ QuoteIdentifier (TableName c) in
  let builder := if is_empty (option_of options "type") then builder
                 else builder +:+ " " +:+ option_of options "type" in
  let fields := index_fields keys (ko keys) "" in
  let builder := builder +:+ "(" +:+ fields +:+ ")" in
  AutoCreateObject c builder.

Fixpoint create_objects (client : option Pool) (dmls : list string) : Exec unit :=
  match dmls with
  | [] => mret tt
  | dml :: rest => _ ← Query client dml []; create_objects client rest
  end.

(** AutoCreateObjects of this revision: it ends with [return nil]. *)
Definition AutoCreateObjects (c : PostgresPersistence) (correlationId : string)
  : Exec (option error) :=
  if bool_decide (length (autoObjects c) = 0%nat) then mret None else
  let query := "SELECT to_regclass('" +:+ TableName c +:+ "')" in
  '(result, qErr) ← Query (Client c) query [];
  match qErr with
  | Some e => mret (Some e)
  | None =>
      let create := (_ ← create_objects (Client c) (autoObjects c); mret None) in
      match pending result with
      | (_, Some cErr) :: _ => mret (Some cErr)
      | (val, None) :: _ =>
          if bool_decide (0 < length val)%nat && first_is val (TableName c)
          then mret None
          else create
      | [] => create
      end
  end.

Definition Clear (c : PostgresPersistence) (correlationId : string)
  : Exec (option failure) :=
  if is_empty (TableName c) then mret (Some (Plain "Table name is not defined"))
  else
    let query := "DELETE FROM " +:+ QuoteIdentifier (TableName c) in
    '(_, err) ← Query (Client c) query [];
    mret (match err with
          | Some cause =>
              Some (Typed (WithCause (ConnectionError "CONNECT_FAILED"
                                        "Connection to postgres failed") cause))
          | None => None
          end).

Definition GetCountByFilter (c : PostgresPersistence) (correlationId : string)
  (filter : any) : Exec (Z * option error) :=
  let query := "SELECT COUNT(*) AS count FROM " +:+ QuoteIdentifier (TableName c) in
  let query := add_clause query " WHERE " (clause_text filter) in
  '(result, qErr) ← Query (Client c) query [];
  match qErr with
  | Some e => mret (0, Some e)
  | None =>
      let count := match pending result with
                   | current :: _ => single (read_values current).1 ToLong
                   | [] => 0
                   end in
      mret (count, None)
  end.

Definition GetListByFilter (c : PostgresPersistence) (correlationId : string)
  (filter sort sel : any) : Exec (list any * option error) :=
  let query := "SELECT * FROM " +:+ QuoteIdentifier (TableName c) in
  let query := match clause_text sel with
               | Some slct =>
                   "SELECT " +:+ slct +:+ " FROM " +:+ QuoteIdentifier (TableName c)
               | None => query
               end in
  let query := add_clause query " WHERE " (clause_text filter) in
  let query := add_clause query " ORDER BY " (clause_text sort) in
  '(result, qErr) ← Query (Client c) query [];
  match qErr with
  | Some e => mret ([], Some e)
  | None =>
      items ← lift (convert_all c result (pending result));
      mret (items, None)
  end.

Definition DeleteByFilter (c : PostgresPersistence) (correlationId : string)
  (filter : string) : Exec (option error) :=
  let query := "DELETE FROM " +:+ QuoteIdentifier (TableName c) in
  let query := if is_empty filter then query else query +:+ " WHERE " +:+ filter in
  '(_, qErr) ← Query (Client c) query [];
  mret qErr.

End Engine.
End Reflect.

(** ** IdentifiablePostgresPersistence *)

Module Identifiable.
Import Reflect.

(** [data.Value()] on a [*cdata.AnyValueMap]: the method reads a field of
    its receiver, so a nil receiver panics. *)
Definition Value (data : option (gmap string value)) : outcome (gmap string value) :=
  match data with
  | None => Panics "nil pointer dereference"
  | Some m => Returns m
  end.

Section Operations.
Context `{Commons}.

(** The struct embeds PostgresPersistence and adds no field. *)
Record IdentifiablePostgresPersistence : Type := {
  base : PostgresPersistence
}.

Definition NewIdentifiablePostgresPersistence (defaults : ConfigParams)
  (proto : Prototype) (tableName : string)
  : outcome IdentifiablePostgresPersistence :=
  let c := {| base := NewPostgresPersistence defaults proto tableName |} in
  if is_empty tableName then Panics "Table name could not be empty"
  else Returns c.

Definition ConvertFromPublicPartial (v : any) : any := ConvertFromPublic v.

Definition id_is (tail : string) : string := dq +:+ "Id" +:+ dq +:+ tail.

Definition GetOneById (c : IdentifiablePostgresPersistence)
  (correlationId : string) (id : value) : Exec (slot * option error) :=
  let query := "SELECT * FROM " +:+ QuoteIdentifier (TableName (base c))
               +:+ " WHERE " +:+ id_is "=$1" in
  '(qResult, qErr) ← Query (Client (base c)) query [id];
  match qErr with
  | Some e => mret (Item ANil, Some e)
  | None =>
      match pending qResult with
      | current :: _ =>
          let '(rows, vErr) := read_values current in
          if bool_decide (vErr = None) && bool_decide (0 < length rows)%nat then
            result ← lift (ConvertFromRows (base c) (field_names qResult) rows);
            mret (Item result, None)
          else mret (Item ANil, vErr)
      | [] => mret (Item ANil, None)
      end
  end.

Definition Create (rt : Runtime) (c : IdentifiablePostgresPersistence)
  (correlationId : string) (item : any) : Exec (slot * option error) :=
  if is_nil item then mret (Item ANil, None) else
  let newItem := CloneObject item in
  let newItem := GenerateObjectId newItem in
  Reflect.Create rt (base c) correlationId newItem.

Definition Set_ (rt : Runtime) (c : IdentifiablePostgresPersistence)
  (correlationId : string) (item : any) : Exec (slot * option error) :=
  if is_nil item then mret (Item ANil, None) else
  let newItem := CloneObject item in
  let newItem := GenerateObjectId newItem in
  let row := ConvertFromPublic item in
  columns ← lift (GenerateColumns (range_order rt 0) row);
  params ← lift (GenerateParameters row);
  setParams ← lift (GenerateSetParameters (range_order rt 1) row);
  values ← lift (GenerateValues (range_order rt 2) row);
  let id := GetObjectId newItem in
  let query := "INSERT INTO " +:+ QuoteIdentifier (TableName (base c))
               +:+ " (" +:+ columns +:+ ")"
               +:+ " VALUES (" +:+ params +:+ ")"
               +:+ " ON CONFLICT (" +:+ id_is ") DO UPDATE SET "
               +:+ setParams +:+ " RETURNING *" in
  '(qResult, qErr) ← Query (Client (base c)) query values;
  match qErr with
  | Some e => mret (Item ANil, Some e)
  | None =>
      match pending qResult with
      | current :: _ =>
          let '(rows, vErr) := read_values current in
          if bool_decide (vErr = None) && bool_decide (0 < length rows)%nat then
            result ← lift (ConvertFromRows (base c) (field_names qResult) rows);
            mret (Item result, None)
          else mret (Item ANil, vErr)
      | [] => mret (Item ANil, None)
      end
  end.

Definition Update (rt : Runtime) (c : IdentifiablePostgresPersistence)
  (correlationId : string) (item : any) : Exec (slot * option error) :=
  if is_nil item then mret (Item ANil, None) else
  let newItem := CloneObject item in
  let id := GetObjectId newItem in
  let row := ConvertFromPublic newItem in
  params ← lift (GenerateSetParameters (range_order rt 0) row);
  values ← lift (GenerateValues (range_order rt 1) row);
  let values := values ++ [id] in
  let query := "UPDATE " +:+ QuoteIdentifier (TableName (base c))
               +:+ " SET " +:+ params +:+ " WHERE " +:+ id_is "=$"
               +:+ FormatInt (Z.of_nat (length values)) 16 +:+ " RETURNING *" in
  '(qResult, qErr) ← Query (Client (base c)) query values;
  match qErr with
  | Some e => mret (Item ANil, Some e)
  | None =>
      match pending qResult with
      | current :: _ =>
          let '(rows, vErr) := read_values current in
          if bool_decide (vErr = None) && bool_decide (0 < length rows)%nat then
            result ← lift (ConvertFromRows (base c) (field_names qResult) rows);
            mret (Item result, None)
          else mret (box_error vErr, None)
      | [] => mret (Item ANil, None)
      end
  end.

Definition UpdatePartially (rt : Runtime) (c : IdentifiablePostgresPersistence)
  (correlationId : string) (id : value) (data : option (gmap string value))
  : Exec (slot * option error) :=
  if value_is_nil id then mret (Item ANil, None) else
  fields ← lift (Value data);
  let row := ConvertFromPublicPartial (AMap fields) in
  params ← lift (GenerateSetParameters (range_order rt 0) row);
  values ← lift (GenerateValues (range_order rt 1) row);
  let values := values ++ [id] in
  let query := "UPDATE " +:+ QuoteIdentifier (TableName (base c))
               +:+ " SET " +:+ params +:+ " WHERE " +:+ id_is "=$"
               +:+ FormatInt (Z.of_nat (length values)) 16 +:+ " RETURNING *" in
  '(qResult, qErr) ← Query (Client (base c)) query values;
  match qErr with
  | Some e => mret (Item ANil, Some e)
  | None =>
      match pending qResult with
      | current :: _ =>
          let '(rows, vErr) := read_values current in
          if bool_decide (vErr = None) && bool_decide (0 < length rows)%nat then
            result ← lift (ConvertFromRows (base c) (field_names qResult) rows);
            mret (Item result, None)
          else mret (box_error vErr, None)
      | [] => mret (Item ANil, None)
      end
  end.

Definition DeleteById (c : IdentifiablePostgresPersistence)
  (correlationId : string) (id : value) : Exec (slot * option error) :=
  let query := "DELETE FROM " +:+ QuoteIdentifier (TableName (base c))
               +:+ " WHERE " +:+ id_is "=$1 RETURNING *" in
  '(qResult, qErr) ← Query (Client (base c)) query [id];
  match qErr with
  | Some e => mret (Item ANil, Some e)
  | None =>
      match pending qResult with
      | current :: _ =>
          let '(rows, vErr) := read_values current in
          if bool_decide (vErr = None) && bool_decide (0 < length rows)%nat then
            result ← lift (ConvertFromRows (base c) (field_names qResult) rows);
            mret (Item result, None)
          else mret (box_error vErr, None)
      | [] => mret (Item ANil, None)
      end
  end.

Definition DeleteByIds (c : IdentifiablePostgresPersistence)
  (correlationId : string) (ids : list value) : Exec (option error) :=
  params ← lift (GenerateParameters (ASlice ids));
  let query := "DELETE FROM " +:+ QuoteIdentifier (TableName (base c))
               +:+ " WHERE " +:+ id_is " IN(" +:+ params +:+ ")" in
  '(qResult, qErr) ← Query (Client (base c)) query ids;
  match qErr with
  | Some e => mret (Some e)
  | None =>
      match pending qResult with
      | current :: _ => mret (read_values current).2
      | [] => mret None
      end
  end.

Definition GetListByIds (c : IdentifiablePostgresPersistence)
  (correlationId : string) (ids : list value) : Exec (list any * option error) :=
  params ← lift (GenerateParameters (ASlice ids));
  let query := "SELECT * FROM " +:+ QuoteIdentifier (TableName (base c))
               +:+ " WHERE " +:+ id_is " IN(" +:+ params +:+ ")" in
  '(qResult, qErr) ← Query (Client (base c)) query ids;
  match qErr with
  | Some e => mret ([], Some e)
  | None =>
      items ← lift (convert_all (base c) qResult (pending qResult));
      mret (items, None)
  end.

End Operations.
End Identifiable.

(** ** IdentifiableJsonPostgresPersistence *)

Module JsonColumn.
Import Reflect.

(** A row of the two-column table as ConvertFromPublic builds it: a
    map[string]interface{} whose members are themselves [interface{}]. *)
Inductive row : Type :=
| Bare (a : any)
| Members (m : gmap string any).

Section Operations.
Context `{Commons}.

(** The struct embeds IdentifiablePostgresPersistence and adds no field. *)
Record IdentifiableJsonPostgresPersistence : Type := {
  identifiable : Identifiable.IdentifiablePostgresPersistence
}.

Definition EnsureTable (c : IdentifiableJsonPostgresPersistence)
  (idType dataType : string) : IdentifiableJsonPostgresPersistence :=
  let idType := if is_empty idType then "TEXT" else idType in
  let dataType := if is_empty dataType then "JSONB" else dataType in
  let b := Identifiable.base (identifiable c) in
  let query := "CREATE TABLE IF NOT EXISTS " +:+ QuoteIdentifier (TableName b)
               +:+ " (" +:+ dq +:+ "Id" +:+ dq +:+ " " +:+ idType
               +:+ " PRIMARY KEY, " +:+ dq +:+ "data" +:+ dq +:+ " "
               +:+ dataType +:+ ")" in
  {| identifiable := {| Identifiable.base := AutoCreateObject b query |} |}.

Definition ConvertToPublic (v : row) : any :=
  match v with
  | Members val => default ANil (val !! "data")
  | Bare a =>
      if is_nil a then ANil
      else match as_map a with
           | Some val => AVal (map_index val "data")
           | None => a
           end
  end.

Definition ConvertFromPublic (v : any) : row :=
  if is_nil v then Bare ANil
  else Members (<["id" := AVal (GetObjectId v)]> (<["data" := v]> ∅)).

(** UpdatePartially; the map of [data] travels as one JSON argument. *)
Definition UpdatePartially (c : IdentifiableJsonPostgresPersistence)
  (correlationId : string) (id : value) (data : option (gmap string value))
  : Exec (slot * option error) :=
  match data with
  | None => mret (Item ANil, None)
  | Some fields =>
      let b := Identifiable.base (identifiable c) in
      let query := "UPDATE " +:+ QuoteIdentifier (TableName b) +:+ " SET "
                   +:+ dq +:+ "data" +:+ dq +:+ "=" +:+ dq +:+ "data" +:+ dq
                   +:+ "||$2 WHERE " +:+ dq +:+ "Id" +:+ dq
                   +:+ "=$1 RETURNING *" in
      let values := [id; VObj (map_to_list fields)] in
      '(qResult, qErr) ← Query (Client b) query values;
      match qErr with
      | Some e => mret (Item ANil, Some e)
      | None =>
          match pending qResult with
          | current :: _ =>
              let '(rows, vErr) := read_values current in
              if bool_decide (vErr = None) && bool_decide (0 < length rows)%nat then
                result ← lift (ConvertFromRows b (field_names qResult) rows);
                mret (Item result, None)
              else mret (box_error vErr, None)
          | [] => mret (Item ANil, None)
          end
      end
  end.

End Operations.
End JsonColumn.

(** ** connect/PostgresConnectionResolver.go *)

Module Resolver.

(** A [ccon.ConnectionParams], by what its accessors return: [Uri()],
    [Host()], [Port()] and [GetAsNullableString("database")], a pointer that
    may be nil. *)
Record ConnectionParams : Type := {
  Uri : string;
  Host : string;
  Port : Z;
  Database : option string
}.

Record CredentialParams : Type := {
  Username : string;
  Password : string
}.

(** The fields of [pgx.ConnConfig] the resolver writes. *)
Record ConnConfig : Type := {
  cfg_Host : string;
  cfg_Port : Z;
  cfg_Database : string;
  cfg_User : string;
  cfg_Password : string
}.

Definition empty_config : ConnConfig :=
  {| cfg_Host := ""; cfg_Port := 0; cfg_Database := ""; cfg_User := "";
     cfg_Password := "" |}.

Definition validateConnection (correlationId : string)
  (connection : ConnectionParams) : outcome (option error) :=
  if negb (is_empty (Uri connection)) then Returns None else
  if is_empty (Host connection)
  then Returns (Some (ConfigError "NO_HOST" "Connection host is not set")) else
  if Port connection =? 0
  then Returns (Some (ConfigError "NO_PORT" "Connection port is not set")) else
  match Database connection with
  | None => Panics "nil pointer dereference"
  | Some database =>
      if is_empty database
      then Returns (Some (ConfigError "NO_DATABASE" "Connection database is not set"))
      else Returns None
  end.

Fixpoint validate_each (correlationId : string)
  (connections : list ConnectionParams) : outcome (option error) :=
  match connections with
  | [] => Returns None
  | connection :: rest =>
      outcome_bind (validateConnection correlationId connection) (λ err,
        match err with
        | Some e => Returns (Some e)
        | None => validate_each correlationId rest
        end)
  end.

Definition validateConnections (correlationId : string)
  (connections : list ConnectionParams) : outcome (option error) :=
  if bool_decide (length connections = 0%nat)
  then Returns (Some (ConfigError "NO_CONNECTION" "Database connection is not set"))
  else validate_each correlationId connections.

Section Compose.
(** [pgx.ParseConfig] belongs to the driver. *)
Variable ParseConfig : string → ConnConfig + error.

Definition compose_step (acc : ConnConfig * option error)
  (connection : ConnectionParams) : ConnConfig * option error :=
  let '(config, e) := acc in
  let '(config, e) :=
    if negb (is_empty (Uri connection)) then
      match ParseConfig (Uri connection) with
      | inl cfg => (cfg, e)
      | inr err => (config, Some err)
      end
    else (config, e) in
  let host := if negb (is_empty (Host connection)) then Host connection
              else cfg_Host config in
  let port := if negb (Port connection =? 0) then Port connection mod 65536
              else cfg_Port config in
  let database := match Database connection with
                  | Some d => if negb (is_empty d) then d else cfg_Database config
                  | None => cfg_Database config
                  end in
  ({| cfg_Host := host; cfg_Port := port; cfg_Database := database;
      cfg_User := cfg_User config; cfg_Password := cfg_Password config |}, e).

Definition composeConfig (connections : list ConnectionParams)
  (credential : option CredentialParams) : ConnConfig * option error :=
  let '(config, e) := fold_left compose_step connections (empty_config, None) in
  match credential with
  | None => (config, e)
  | Some cred =>
      let user := if negb (is_empty (Username cred)) then Username cred
                  else cfg_User config in
      let password := if negb (is_empty (Password cred)) then Password cred
                      else cfg_Password config in
      ({| cfg_Host := cfg_Host config; cfg_Port := cfg_Port config;
          cfg_Database := cfg_Database config; cfg_User := user;
          cfg_Password := password |}, e)
  end.

(** Resolve, given what the two lookups it starts return: [ResolveAll] of
    the connection resolver and [Lookup] of the credential resolver.  Both
    goroutines are joined before anything is read; a panic in either one
    ends the program. *)
Definition Resolve (correlationId : string)
  (resolved : list ConnectionParams * option error)
  (looked_up : option CredentialParams * option error)
  : outcome (option ConnConfig * option error) :=
  let '(connections, errConn) := resolved in
  let '(credential, errCred) := looked_up in
  outcome_bind
    (match errConn with
     | None => validateConnections correlationId connections
     | Some e => Returns (Some e)
     end)
    (λ errConn,
       match errConn, errCred with
       | Some e, _ => Returns (None, Some e)
       | None, Some e => Returns (None, Some e)
       | None, None =>
           let '(config, e) := composeConfig connections credential in
           Returns (Some config, e)
       end).

End Compose.
End Resolver.

(** ** Cursors *)

(** The values of the rows ahead of the first one on which [Values()]
    fails: with that row the cursor closes, and the rows behind it are never
    read. *)
Fixpoint ahead (rows : list (list value * option error)) : list (list value) :=
  match rows with
  | (vals, None) :: rest => vals :: ahead rest
  | _ => []
  end.

Definition readable (rows : Rows) : list (list value) := ahead (pending rows).

(** Every readable row holds a value for every column, as the driver
    guarantees. *)
Definition complete (rows : Rows) : Prop :=
  ∀ r, r ∈ pending rows → r.2 = None →
    (length (field_names rows) ≤ length r.1)%nat.

(** ** Reading a SET clause and a placeholder list back *)

(** The assignments of a SET clause over [names], numbered from [index], as
    they read once the quotes are stripped. *)
Fixpoint assignments (names : list string) (index : Z) : list string :=
  match names with
  | [] => []
  | k :: rest => (k +:+ "=$" +:+ FormatInt index 16) :: assignments rest (index + 1)
  end.

(** The placeholders for [n] parameters, one by one. *)
Definition placeholders (n : nat) : list string :=
  map (λ i, "$" +:+ FormatInt (Z.of_nat i) 16) (seq 1 n).

(** ** Connection entries *)

(** An entry without a uri that passes validation: host, port and database
    are all there. *)
Definition described (conn : Resolver.ConnectionParams) : Prop :=
  Resolver.Uri conn = "" ∧ Resolver.Host conn ≠ "" ∧ Resolver.Port conn ≠ 0
  ∧ ∃ d, Resolver.Database conn = Some d ∧ d ≠ "".

(** An entry whose uri, if it has one, the driver can parse. *)
Definition parses (ParseConfig : string → Resolver.ConnConfig + error)
  (conn : Resolver.ConnectionParams) : Prop :=
  Resolver.Uri conn = "" ∨ ∃ cfg, ParseConfig (Resolver.Uri conn) = inl cfg.

(** ** Reading a configuration through its getter *)

(** A key carries the value [v] when the getter answers [v] whatever the
    default, and is unset when the getter hands back the default. *)
Definition carries `{Commons} (cfg : ConfigParams) (key v : string) : Prop :=
  ∀ d, GetAsStringWithDefault cfg key d = v.

Definition unset `{Commons} (cfg : ConfigParams) (key : string) : Prop :=
  ∀ d, GetAsStringWithDefault cfg key d = d.

(** How the table name after Configure relates to the one before, given the
    configuration the getters read. *)
Definition table_rule `{Commons} (cfg : ConfigParams) (before after : string)
  : Prop :=
  (∀ v1 v2, carries cfg "collection" v1 → carries cfg "table" v2 → after = v2)
  ∧ (∀ v, carries cfg "collection" v → unset cfg "table" → after = v)
  ∧ (∀ v, unset cfg "collection" → carries cfg "table" v → after = v)
  ∧ (unset cfg "collection" → unset cfg "table" → after = before).

(** ** The closed engine *)

(** An engine that reports closed holds no pool. *)
Definition closed_holds_no_pool `{Commons} {Conn : Type}
  (c : @Json.PostgresPersistence _ Conn) : Prop :=
  Json.opened c = false → Json.Client c = None.

(** ** Names that survive the column string *)

(** A column name that GenerateValues can read back from the column string:
    it holds neither the separator nor the quote the parse strips. *)
Definition plain_name (name : string) : Prop :=
  has_char comma name = false ∧ has_char dquote name = false.

(** [, f k1 , f k2 ...]: what the loops append after their first piece. *)
Fixpoint join_tail (f : string → string) (names : list string) : string :=
  match names with
  | [] => ""
  | k :: rest => "," +:+ f k +:+ join_tail f rest
  end.

(** ** Plain collaborators, to run the operations on examples *)

Fixpoint parse_digits (s : string) (acc : Z) : option Z :=
  match s with
  | EmptyString => Some acc
  | String a s' =>
      let d := Z.of_nat (nat_of_ascii a) - 48 in
      if (0 <=? d) && (d <? 10) then parse_digits s' (10 * acc + d) else None
  end.

(** Configuration as a string map; getters answer with the stored value
    and fall back to the default when the key is missing. *)
Definition plain_commons : Commons := {|
  ConfigParams := gmap string string;
  References := unit;
  Prototype := unit;
  PagingParams := option Z * option Z * bool;
  SetDefaults := λ cfg defaults, cfg ∪ defaults;
  GetAsStringWithDefault := λ cfg key d, default d (cfg !! key);
  GetAsIntegerWithDefault := λ cfg key d,
    default d (cfg !! key ≫= λ s, if is_empty s then None else parse_digits s 0);
  NewEmptyPagingParams := (None, None, false);
  GetSkip := λ p minSkip, match p.1.1 with
                          | None => minSkip
                          | Some skip => Z.max skip minSkip
                          end;
  GetTake := λ p maxTake, match p.1.2 with
                          | None => maxTake
                          | Some take => if take <? 0 then 0 else Z.min take maxTake
                          end;
  PagingTotal := λ p, p.2;
  ToLong := λ v, match v with VInt z | VFloat z => z | _ => 0 end;
  CloneObject := λ a, a;
  GenerateObjectId := λ a, a;
  GetObjectId := λ a, match as_map a with
                      | Some m => map_index m "Id"
                      | None => VNil
                      end;
  Decode := λ _ buf, AMap buf
|}.

(** A connection that either refuses to open or comes up as told. *)
Record SimConnection : Type := {
  refuses : option error;
  comes_up : bool;
  is_up : bool;
  sim_pool : option Pool;
  sim_database : string
}.

Definition sim_set_up (c : SimConnection) (up : bool) : SimConnection :=
  {| refuses := refuses c; comes_up := comes_up c; is_up := up;
     sim_pool := sim_pool c; sim_database := sim_database c |}.

Definition sim_connection_api : @ConnectionApi plain_commons SimConnection := {|
  NewPostgresConnection :=
    {| refuses := None; comes_up := false; is_up := false; sim_pool := None;
       sim_database := "" |};
  conn_Configure := λ c _, c;
  conn_SetReferences := λ c _, c;
  conn_Open := λ c _, match refuses c with
                      | Some e => (c, Some e)
                      | None => (sim_set_up c (comes_up c), None)
                      end;
  conn_Close := λ c _, (sim_set_up c false, None);
  conn_IsOpen := is_up;
  conn_GetConnection := sim_pool;
  conn_GetDatabaseName := sim_database
|}.

Definition plain_proto : @Prototype plain_commons := tt.
Definition no_config : @ConfigParams plain_commons := (∅ : gmap string string).

Definition config_of (entries : list (string * string)) : @ConfigParams plain_commons :=
  (list_to_map entries : gmap string string).

Definition want_total : @PagingParams plain_commons := (None, None, true).

Definition no_rows : Rows := {| pending := []; field_names := []; rows_err := None |}.

(** A pool over a table without rows: a count is answered with 0, every
    other statement with no row. *)
Definition empty_table_pool : Pool := λ query _,
  if String.prefix "SELECT COUNT" query
  then ({| pending := [([VInt 0], None)]; field_names := ["count"];
           rows_err := None |}, None)
  else (no_rows, None).

(** A pool whose rows cannot be decoded: [Values()] fails on the row. *)
Definition undecodable_pool : Pool := λ _ _,
  ({| pending := [([], Some (DriverError "cannot decode row"))];
      field_names := ["Id"]; rows_err := None |}, None).

(** A pool that rejects every statement, as the server does with one it
    cannot parse. *)
Definition rejecting_pool : Pool := λ _ _,
  (no_rows, Some (DriverError "syntax error")).

(** A pool that knows the table: the catalog probe names it. *)
Definition provisioned_pool (table : string) : Pool := λ _ _,
  ({| pending := [([VStr table], None)]; field_names := ["to_regclass"];
      rows_err := None |}, None).

Definition fixed_runtime : Runtime := {| range_order := λ _, canonical_order; draw := 7 |}.

Definition dummies_on (pool : Pool) : @Reflect.PostgresPersistence plain_commons :=
  {| Reflect.defaultConfig := no_config; Reflect.config := None;
     Reflect.opened := true; Reflect.localConnection := false;
     Reflect.autoObjects := []; Reflect.Client := Some pool;
     Reflect.DatabaseName := "test"; Reflect.TableName := "dummies";
     Reflect.MaxPageSize := 100; Reflect.Proto := plain_proto |}.

Definition identifiable_on (pool : Pool)
  : @Identifiable.IdentifiablePostgresPersistence plain_commons :=
  {| Identifiable.base := dummies_on pool |}.

Definition json_dummies : @Json.PostgresPersistence plain_commons SimConnection :=
  @Json.NewPostgresPersistence plain_commons SimConnection no_config plain_proto "dummies".

Definition json_dummies_on (pool : Pool)
  : @Json.PostgresPersistence plain_commons SimConnection :=
  Json.with_lifecycle json_dummies true false None (Some pool) "test".

Definition json_dummies_with (conn : SimConnection) (objects : list string)
  : @Json.PostgresPersistence plain_commons SimConnection :=
  {| Json.defaultConfig := no_config; Json.config := None; Json.references := None;
     Json.opened := false; Json.localConnection := true;
     Json.autoObjects := objects;
     Json.ConvertFromPublic := Json.PerformConvertFromPublic;
     Json.ConvertToPublic := Json.PerformConvertToPublic;
     Json.ConvertFromPublicPartial := Json.PerformConvertFromPublic;
     Json.Connection := Some conn; Json.Client := None;
     Json.DatabaseName := ""; Json.TableName := "dummies";
     Json.MaxPageSize := 100; Json.Proto := plain_proto |}.

Definition two_columns : any :=
  AMap (<["Id" := VStr "1"]> (<["Key" := VStr "k"]> ∅)).

Definition reversed_order : MapOrder := λ m, reverse (canonical_order m).

(** A runtime whose first [range] over a map and its later ones disagree. *)
Definition crossing_runtime : Runtime :=
  {| range_order := λ n, match n with
                         | O => canonical_order
                         | S _ => reversed_order
                         end;
     draw := 7 |}.

(** A record whose "Id" is the integer 2^53 + 1. *)
Definition large_id : any := AMap (<["Id" := VInt 9007199254740993]> ∅).

Definition refusing_connection : SimConnection :=
  {| refuses := Some (DriverError "connection refused"); comes_up := false;
     is_up := false; sim_pool := None; sim_database := "test" |}.

Definition sleeping_connection : SimConnection :=
  {| refuses := None; comes_up := false; is_up := false; sim_pool := None;
     sim_database := "test" |}.

Definition connection_to (pool : Pool) : SimConnection :=
  {| refuses := None; comes_up := true; is_up := false; sim_pool := Some pool;
     sim_database := "test" |}.

Definition create_table : string :=
  "CREATE TABLE IF NOT EXISTS dummies (id TEXT PRIMARY KEY, content TEXT)".

Definition ten_values : list value := map VInt [1; 2; 3; 4; 5; 6; 7; 8; 9; 10].

Definition ten_names : list string :=
  ["c1"; "c2"; "c3"; "c4"; "c5"; "c6"; "c7"; "c8"; "c9"; "c10"].

Definition ten_fields : list field :=
  map (λ n, {| f_name := n; f_json := n; f_value := VInt 0 |}) ten_names.

(** A pool on which every statement succeeds and finds no row. *)
Definition finds_nothing (pool : Pool) : Prop :=
  ∀ query args, (pool query args).2 = None ∧ pending (pool query args).1 = [].

(** ** Further examples *)

(** A cursor of three rows, the second of which cannot be read. *)
Definition mixed_rows : Rows :=
  {| pending := [([VStr "1"], None);
                 ([], Some (DriverError "cannot decode row"));
                 ([VStr "2"], None)];
     field_names := ["Id"]; rows_err := None |}.

Definition mixed_pool : Pool := λ _ _, (mixed_rows, None).

Definition no_parse : string → Resolver.ConnConfig + error :=
  λ _, inr (DriverError "cannot parse uri").

Definition primary : Resolver.ConnectionParams :=
  {| Resolver.Uri := ""; Resolver.Host := "db1"; Resolver.Port := 5432;
     Resolver.Database := Some "app" |}.

Definition replica : Resolver.ConnectionParams :=
  {| Resolver.Uri := ""; Resolver.Host := "db2"; Resolver.Port := 65537;
     Resolver.Database := Some "app2" |}.

Definition by_uri : Resolver.ConnectionParams :=
  {| Resolver.Uri := "postgres://db1/app"; Resolver.Host := "";
     Resolver.Port := 0; Resolver.Database := None |}.

Definition admin : Resolver.CredentialParams :=
  {| Resolver.Username := "admin"; Resolver.Password := "" |}.

Definition two_fields : list field :=
  [{| f_name := "Id"; f_json := "id"; f_value := VStr "1" |};
   {| f_name := "Key"; f_json := "key"; f_value := VStr "k" |}].

Definition json_column_on (pool : Pool)
  : @JsonColumn.IdentifiableJsonPostgresPersistence plain_commons :=
  {| JsonColumn.identifiable := identifiable_on pool |}.

(** An engine that owns an open connection to [pool]. *)
Definition open_engine (pool : Pool) (objects : list string)
  : @Json.PostgresPersistence plain_commons SimConnection :=
  Json.with_lifecycle (json_dummies_with (connection_to pool) objects)
    true true (Some (sim_set_up (connection_to pool) true)) (Some pool) "test".

(** A closed engine bound to a connection it does not own. *)
Definition guest_engine (conn : SimConnection)
  : @Json.PostgresPersistence plain_commons SimConnection :=
  Json.with_lifecycle json_dummies false false (Some conn) None "".

(** * Properties *)

Section StringFacts.

(* stdpp keeps [String.append] folded under [simpl]; the proofs below unfold
   it on constructors. *)
#[local] Arguments String.append !s1 s2 : simpl nomatch.

Lemma append_nil_r (s : string) : s +:+ "" = s.
Proof. induction s as [|a s IH]; simpl; [done | by rewrite IH]. Qed.

Lemma append_assoc (a b c : string) : (a +:+ b) +:+ c = a +:+ (b +:+ c).
Proof. induction a as [|x a IH]; simpl; [done | by rewrite IH]. Qed.

Lemma is_empty_append (a b : string) :
  is_empty a = false → is_empty (a +:+ b) = false.
Proof. by destruct a. Qed.

Lemma QuoteIdentifier_nonempty (k : string) :
  k ≠ "" → is_empty (QuoteIdentifier k) = false.
Proof.
  destruct k as [|c k]; [done | intros _; simpl].
  by destruct (Ascii.eqb c squote).
Qed.

Lemma RemoveAll_append (c : ascii) (a b : string) :
  RemoveAll c (a +:+ b) = RemoveAll c a +:+ RemoveAll c b.
Proof.
  induction a as [|x a IH]; simpl; [done|].
  destruct (Ascii.eqb x c); simpl; by rewrite IH.
Qed.

Lemma RemoveAll_absent (c : ascii) (s : string) :
  has_char c s = false → RemoveAll c s = s.
Proof.
  induction s as [|x s IH]; simpl; [done|].
  intros [Hx Hs]%orb_false_iff. rewrite Hx. by rewrite IH.
Qed.

Lemma RemoveAll_QuoteIdentifier (k : string) :
  has_char dquote k = false → RemoveAll dquote (QuoteIdentifier k) = k.
Proof.
  intros Hk. destruct k as [|c k]; [done|].
  unfold QuoteIdentifier. destruct (Ascii.eqb c squote).
  - by apply RemoveAll_absent.
  - rewrite !RemoveAll_append, (RemoveAll_absent _ _ Hk). simpl.
    by rewrite append_nil_r.
Qed.

Lemma RemoveAll_join_tail (names : list string) :
  Forall plain_name names →
  RemoveAll dquote (join_tail QuoteIdentifier names) = join_tail id names.
Proof.
  induction 1 as [|k rest [_ Hq] _ IH]; simpl; [done|].
  by rewrite RemoveAll_append, RemoveAll_QuoteIdentifier, IH.
Qed.

Lemma Split_nonempty (sep : ascii) (s : string) : Split sep s ≠ [].
Proof.
  induction s as [|x s IH]; simpl; [done|].
  destruct (Ascii.eqb x sep); [done|]. by destruct (Split sep s).
Qed.

Lemma Split_absent (sep : ascii) (s : string) :
  has_char sep s = false → Split sep s = [s].
Proof.
  induction s as [|x s IH]; simpl; [done|].
  intros [Hx Hs]%orb_false_iff. rewrite Hx, (IH Hs). done.
Qed.

Lemma Split_first (sep : ascii) (a b : string) :
  has_char sep a = false →
  Split sep (a +:+ String sep b) = a :: Split sep b.
Proof.
  induction a as [|x a IH]; simpl.
  - intros _. by rewrite Ascii.eqb_refl.
  - intros [Hx Ha]%orb_false_iff. rewrite Hx, (IH Ha). done.
Qed.

Lemma Split_join_tail (k : string) (rest : list string) :
  Forall plain_name (k :: rest) →
  Split comma (k +:+ join_tail id rest) = k :: rest.
Proof.
  revert k. induction rest as [|k' rest IH]; intros k Hall.
  - simpl. rewrite append_nil_r. apply Split_absent.
    by inversion Hall as [|? ? [Hc _] _].
  - inversion Hall as [|? ? [Hc _] Hrest]; subst. simpl.
    change ("," +:+ (id k' +:+ join_tail id rest))
      with (String comma (k' +:+ join_tail id rest)).
    rewrite (Split_first _ _ _ Hc). f_equal. by apply IH.
Qed.

Lemma columns_loop_from (names : list string) (acc : string) :
  is_empty acc = false →
  fold_left (λ result item, write_sep result (QuoteIdentifier item)) names acc
  = acc +:+ join_tail QuoteIdentifier names.
Proof.
  revert acc. induction names as [|k rest IH]; intros acc Hacc; simpl.
  - by rewrite append_nil_r.
  - unfold write_sep at 2. rewrite Hacc. rewrite IH.
    + by rewrite !append_assoc.
    + by do 2 apply is_empty_append.
Qed.

Lemma columns_loop_cons (k : string) (rest : list string) :
  k ≠ "" →
  columns_loop (k :: rest) = QuoteIdentifier k +:+ join_tail QuoteIdentifier rest.
Proof.
  intros Hk. unfold columns_loop. simpl.
  by rewrite columns_loop_from by by apply QuoteIdentifier_nonempty.
Qed.

(** The parse GenerateValues applies to the column string gives back the
    names the column loop was run on. *)
Lemma column_names_read_back (k : string) (rest : list string) :
  k ≠ "" → Forall plain_name (k :: rest) →
  Split comma (RemoveAll dquote (columns_loop (k :: rest))) = k :: rest.
Proof.
  intros Hk Hall. rewrite columns_loop_cons by done.
  inversion Hall as [|? ? [Hc Hq] Hrest]; subst.
  rewrite RemoveAll_append, RemoveAll_QuoteIdentifier, RemoveAll_join_tail by done.
  by apply Split_join_tail.
Qed.

Lemma columns_loop_nonempty (k : string) (rest : list string) :
  k ≠ "" → is_empty (columns_loop (k :: rest)) = false.
Proof.
  intros Hk. rewrite columns_loop_cons by done.
  by apply is_empty_append, QuoteIdentifier_nonempty.
Qed.

End StringFacts.


Section Fragments.

Lemma fair_canonical : fair canonical_order.
Proof. by intros m. Qed.

Lemma fair_reversed : fair reversed_order.
Proof. intros m. unfold reversed_order. by rewrite reverse_Permutation. Qed.

Lemma fair_names (o : MapOrder) (items : gmap string value) (name : string) :
  fair o → name ∈ o items → name ∈ dom items.
Proof.
  intros Hfair Hin. rewrite (Hfair items) in Hin.
  apply list_elem_of_fmap in Hin as [[k v] [-> Hkv]].
  apply elem_of_map_to_list in Hkv. apply elem_of_dom. by exists v.
Qed.

Lemma fair_length (o : MapOrder) (items : gmap string value) :
  fair o → length (o items) = size items.
Proof.
  intros Hfair. rewrite (Hfair items), length_fmap. apply length_map_to_list.
Qed.

Lemma length_append (a b : string) :
  String.length (a +:+ b) = (String.length a + String.length b)%nat.
Proof. induction a as [|x a IH]; simpl; [done | by rewrite IH]. Qed.

(** C6. QuoteIdentifier tests the first character against the apostrophe,
    not the double quote: every string that starts with a double quote is
    wrapped a second time and so is not returned unchanged, and quoting is
    not idempotent; only a string that starts with an apostrophe is returned
    as it is. *)
Theorem QuoteIdentifier_requotes_quoted (s : string) :
  QuoteIdentifier (String dquote s) = dq +:+ String dquote s +:+ dq
  ∧ QuoteIdentifier (String dquote s) ≠ String dquote s
  ∧ QuoteIdentifier (dq +:+ "Id" +:+ dq) = dq +:+ dq +:+ "Id" +:+ dq +:+ dq
  ∧ QuoteIdentifier (QuoteIdentifier "Id") ≠ QuoteIdentifier "Id"
  ∧ QuoteIdentifier (String squote s) = String squote s.
Proof.
  split; [reflexivity|]. split.
  - intros Heq. apply (f_equal String.length) in Heq. revert Heq.
    change (QuoteIdentifier (String dquote s)) with (dq +:+ String dquote s +:+ dq).
    rewrite !length_append. simpl. lia.
  - repeat split; done.
Qed.

(** A bare identifier, one that starts with neither quote character, is
    wrapped in double quotes. *)
Lemma QuoteIdentifier_bare (c : ascii) (s : string) :
  c ≠ squote → QuoteIdentifier (String c s) = dq +:+ String c s +:+ dq.
Proof.
  intros Hc. unfold QuoteIdentifier.
  destruct (Ascii.eqb_spec c squote); [done | reflexivity].
Qed.

(** C2. The placeholder index is written with base 16: the tenth
    placeholder of a parameter list and of a SET clause is "$a", and the
    sixteenth is "$10". *)
Theorem tenth_placeholder_is_hexadecimal :
  Json.GenerateParameters (ASlice ten_values) = "$1,$2,$3,$4,$5,$6,$7,$8,$9,$a"
  ∧ Json.GenerateParameters (AStruct ten_fields) = "$1,$2,$3,$4,$5,$6,$7,$8,$9,$a"
  ∧ Reflect.GenerateParameters (AStruct ten_fields)
    = Returns "$1,$2,$3,$4,$5,$6,$7,$8,$9,$a"
  ∧ outcome_bind (Reflect.GenerateSetParameters canonical_order (AStruct ten_fields))
      (λ clause, Returns (Split comma (RemoveAll dquote clause)))
    = Returns ["c1=$1"; "c2=$2"; "c3=$3"; "c4=$4"; "c5=$5"; "c6=$6"; "c7=$7";
               "c8=$8"; "c9=$9"; "c10=$a"]
  ∧ last (Split comma (Reflect.generateParamString 16)) = Some "$10".
Proof. repeat split; vm_compute; reflexivity. Qed.

(** Up to nine parameters the two notations agree. *)
Lemma single_digit_placeholders (i : Z) :
  0 <= i < 10 → FormatInt i 16 = FormatInt i 10.
Proof.
  intros Hi.
  assert (i = 0 ∨ i = 1 ∨ i = 2 ∨ i = 3 ∨ i = 4 ∨ i = 5 ∨ i = 6 ∨ i = 7
          ∨ i = 8 ∨ i = 9) as Hcases by lia.
  repeat (destruct Hcases as [-> | Hcases]; [reflexivity|]). by subst.
Qed.

(** The guard of GenerateValues: for a record without fields the column
    string is empty and GenerateValues panics, so no value list is produced. *)
Lemma zero_fields_give_no_values :
  ¬ ∃ vals, Json.GenerateValues (Json.GenerateColumns canonical_order (AMap ∅))
              (AMap ∅) = Returns vals.
Proof. intros [vals Hvals]. vm_compute in Hvals. discriminate. Qed.

(** What GenerateValues returns on the column string GenerateColumns wrote
    for the same record. *)
Lemma GenerateValues_of_columns (o : MapOrder) (R : any)
  (items : gmap string value) :
  fair o →
  Json.convertToMap R = Some items →
  items ≠ ∅ →
  (∀ name, name ∈ dom items → name ≠ "" ∧ plain_name name) →
  Json.GenerateColumns o R = columns_loop (o items)
  ∧ Split comma (RemoveAll dquote (Json.GenerateColumns o R)) = o items
  ∧ Json.GenerateValues (Json.GenerateColumns o R) R
    = Returns (map (map_index items) (o items)).
Proof.
  intros Hfair Hmap Hne Hnames.
  unfold Json.GenerateValues, Json.GenerateColumns. rewrite Hmap.
  assert (Hall : ∀ name, name ∈ o items → name ≠ "" ∧ plain_name name)
    by (intros name Hin; eapply Hnames, fair_names; eauto).
  destruct (o items) as [|k rest] eqn:Horder.
  { exfalso. apply Hne, map_size_empty_inv.
    by rewrite <- (fair_length o items Hfair), Horder. }
  assert (Hk : k ≠ "") by (apply Hall; left).
  assert (Hplain : Forall plain_name (k :: rest))
    by (apply Forall_forall; intros x Hx; by apply Hall).
  by rewrite columns_loop_nonempty, column_names_read_back.
Qed.

Lemma GenerateParameters_of_record (R : any) (items : gmap string value) :
  Json.convertToMap R = Some items →
  Json.GenerateParameters R = param_loop (size items).
Proof.
  intros Hmap. unfold Json.GenerateParameters.
  destruct R; try by rewrite Hmap. discriminate.
Qed.

(** X24. Where the value list is read off the column string, or off the
    fields of a struct, it follows the columns.  In the revision whose
    GenerateValues takes the column string: for a record with at least one
    field, whose names are non-empty and hold no comma and no double quote,
    the names read back from the generated column string are the names in
    the order they were written, there is one value and one placeholder per
    field, and the i-th value is what the record's JSON image holds under the
    i-th name.  In the reflective revision a struct gives its names and its
    values both in declaration order, whatever the number of fields. *)
Theorem values_follow_columns (o o' : MapOrder) (R : any)
  (items : gmap string value) (fs : list field) :
  fair o →
  Json.convertToMap R = Some items →
  items ≠ ∅ →
  (∀ name, name ∈ dom items → name ≠ "" ∧ plain_name name) →
  (∃ vals,
     Json.GenerateValues (Json.GenerateColumns o R) R = Returns vals
     ∧ Split comma (RemoveAll dquote (Json.GenerateColumns o R)) = o items
     ∧ Json.GenerateParameters R = param_loop (length vals)
     ∧ length vals = size items
     ∧ ∀ i name, o items !! i = Some name →
         ∃ v, items !! name = Some v ∧ vals !! i = Some v)
  ∧ (∃ cols vals,
       Reflect.GenerateColumns o (AStruct fs) = Returns (columns_loop cols)
       ∧ Reflect.GenerateValues o' (AStruct fs) = Returns vals
       ∧ length cols = length fs ∧ length vals = length fs
       ∧ ∀ i f, fs !! i = Some f →
           cols !! i = Some (f_name f) ∧ vals !! i = Some (f_value f)).
Proof.
  intros Hfair Hmap Hne Hnames. split.
  - destruct (GenerateValues_of_columns o R items) as (_ & Hsplit & Hvals);
      [done..|].
    eexists. split; [exact Hvals|]. split; [exact Hsplit|].
    assert (Hlen : length (map (map_index items) (o items)) = size items)
      by by rewrite length_map, fair_length.
    split; [by rewrite Hlen; apply GenerateParameters_of_record|].
    split; [exact Hlen|].
    + intros i name Hi.
      assert (name ∈ dom items) as [v Hv]%elem_of_dom.
      { eapply fair_names; [done|]. by eapply list_elem_of_lookup_2. }
      exists v. split; [done|].
      rewrite list_lookup_fmap, Hi. simpl. unfold map_index. by rewrite Hv.
  - exists (map f_name fs), (map f_value fs). simpl.
    rewrite !length_map. split; [done|]. split; [done|]. split; [done|].
    split; [done|]. intros i f Hf. by rewrite !list_lookup_fmap, Hf.
Qed.

(** X24 on a record with the two columns "Id" and "Key", and on a struct
    with the fields Id and Key. *)
Lemma values_follow_columns_witness :
  (∃ vals,
     Json.GenerateValues (Json.GenerateColumns canonical_order two_columns)
       two_columns = Returns vals
     ∧ Split comma (RemoveAll dquote (Json.GenerateColumns canonical_order two_columns))
       = canonical_order (<["Id" := VStr "1"]> (<["Key" := VStr "k"]> ∅))
     ∧ Json.GenerateParameters two_columns = param_loop (length vals)
     ∧ length vals = size (<["Id" := VStr "1"]> (<["Key" := VStr "k"]> (∅ : gmap string value)))
     ∧ ∀ i name,
         canonical_order (<["Id" := VStr "1"]> (<["Key" := VStr "k"]> ∅)) !! i
         = Some name →
         ∃ v, (<["Id" := VStr "1"]> (<["Key" := VStr "k"]> ∅) : gmap string value) !! name
              = Some v ∧ vals !! i = Some v)
  ∧ (∃ cols vals,
       Reflect.GenerateColumns canonical_order (AStruct two_fields)
       = Returns (columns_loop cols)
       ∧ Reflect.GenerateValues reversed_order (AStruct two_fields) = Returns vals
       ∧ length cols = length two_fields ∧ length vals = length two_fields
       ∧ ∀ i f, two_fields !! i = Some f →
           cols !! i = Some (f_name f) ∧ vals !! i = Some (f_value f)).
Proof.
  apply (values_follow_columns canonical_order reversed_order two_columns
           (<["Id" := VStr "1"]> (<["Key" := VStr "k"]> ∅)) two_fields).
  - exact fair_canonical.
  - reflexivity.
  - intros Hempty. apply (f_equal (λ m : gmap string value, m !! "Id")) in Hempty.
    vm_compute in Hempty. discriminate.
  - intros name Hin. rewrite !dom_insert_L, dom_empty_L in Hin.
    apply elem_of_union in Hin as [Hin | Hin].
    + apply elem_of_singleton in Hin as ->. split; [done | split; reflexivity].
    + apply elem_of_union in Hin as [Hin | Hin].
      * apply elem_of_singleton in Hin as ->. split; [done | split; reflexivity].
      * by apply elem_of_empty in Hin.
Defined.

(** C1. In the reflective revision the columns of a map record are written
    by one traversal of the map and its values are collected by another, and
    Go fixes the order of neither.  When the two disagree the value list is
    not aligned with the column list: for the record with "Id" = "1" and
    "Key" = "k" the columns read "Key","Id" while the values are "1","k", so
    the first value is not the record's value under the first column, and
    Create sends "1" for the column "Key" and "k" for the column "Id". *)
Theorem reflective_map_values_may_cross :
  fair canonical_order ∧ fair reversed_order
  ∧ Reflect.GenerateColumns canonical_order two_columns
    = Returns (columns_loop ["Key"; "Id"])
  ∧ Reflect.GenerateValues reversed_order two_columns
    = Returns [VStr "1"; VStr "k"]
  ∧ (as_map two_columns ≫= (.!! "Key")) = Some (VStr "k")
  ∧ run (Reflect.Create crossing_runtime (dummies_on empty_table_pool) ""
           two_columns)
    = (Returns (Item ANil, None),
       [("INSERT INTO " +:+ QuoteIdentifier "dummies"
         +:+ " (" +:+ columns_loop ["Key"; "Id"] +:+ ") VALUES ($1,$2) RETURNING *",
         [VStr "1"; VStr "k"])]).
Proof.
  split; [exact fair_canonical|]. split; [exact fair_reversed|].
  repeat split; vm_compute; reflexivity.
Qed.

(** X25. The later revision sends what the round trip through JSON makes of
    a record: no value GenerateValues returns is an integer, every integer
    having become a float64.  An "Id" of 2^53 + 1 is inserted as 2^53, where
    the reflective revision sends the integer as it is. *)
Theorem later_revision_sends_json_images (columns : string) (R : any)
  (vals : list value) :
  Json.GenerateValues columns R = Returns vals →
  Forall (λ v, ∀ z, v ≠ VInt z) vals
  ∧ run (Json.Create fixed_runtime (json_dummies_on empty_table_pool) "" large_id)
    = (Returns (ANil, None),
       [("INSERT INTO " +:+ QuoteIdentifier "dummies"
         +:+ " (" +:+ columns_loop ["Id"] +:+ ") VALUES ($1) RETURNING *",
         [VFloat 9007199254740992])])
  ∧ (run (Reflect.Create fixed_runtime (dummies_on empty_table_pool) "" large_id)).2
    = [("INSERT INTO " +:+ QuoteIdentifier "dummies"
        +:+ " (" +:+ columns_loop ["Id"] +:+ ") VALUES ($1) RETURNING *",
        [VInt 9007199254740993])].
Proof.
  intros Hvals. split; [|split; vm_compute; reflexivity].
  unfold Json.GenerateValues in Hvals.
  destruct (Json.convertToMap R) as [items|] eqn:Hmap;
    [|injection Hvals as <-; constructor].
  destruct (is_empty columns); [discriminate|]. injection Hvals as <-.
  apply Forall_forall. intros v [name [-> _]]%list_elem_of_fmap z.
  assert (Himage : ∃ m : gmap string value, items = json_round <$> m).
  { unfold Json.convertToMap in Hmap. destruct R; simpl in Hmap;
      try discriminate; try (injection Hmap as <-; by eexists).
    destruct v as [| | | | |members]; simpl in Hmap; try discriminate.
    injection Hmap as <-. by eexists. }
  destruct Himage as [m ->]. unfold map_index. rewrite lookup_fmap.
  destruct (m !! name) as [[| | | | |]|]; simpl; discriminate.
Qed.

(** X25 on the record with the columns "Id" and "Key". *)
Lemma later_revision_sends_json_images_witness :
  Forall (λ v, ∀ z, v ≠ VInt z) [VStr "1"; VStr "k"].
Proof.
  destruct (later_revision_sends_json_images
              (columns_loop ["Id"; "Key"]) two_columns [VStr "1"; VStr "k"])
    as [Hall _]; [vm_compute; reflexivity | exact Hall].
Defined.

End Fragments.

Section Reads.

(** C3. Over a table where the filter matches no row the count is 0 and
    GetOneRandom panics in [rand.Int63n] after the first statement, in both
    revisions; it does not return (nil, nil). *)
Theorem GetOneRandom_panics_on_zero_count :
  run (Json.GetOneRandom fixed_runtime (json_dummies_on empty_table_pool) "" ANil)
  = (Panics "invalid argument to Int63n",
     [("SELECT COUNT(*) AS count FROM " +:+ QuoteIdentifier "dummies", [])])
  ∧ run (Reflect.GetOneRandom fixed_runtime (dummies_on empty_table_pool) "" ANil)
    = (Panics "invalid argument to Int63n",
       [("SELECT COUNT(*) AS count FROM " +:+ QuoteIdentifier "dummies", [])])
  ∧ (run (Reflect.GetOneRandom fixed_runtime (dummies_on empty_table_pool) ""
            (AVal (VStr "key='none'")))).1
    = Panics "invalid argument to Int63n".
Proof. repeat split; vm_compute; reflexivity. Qed.

(** [Int63n] returns only for a positive bound. *)
Lemma Int63n_returns (r n pos : Z) : Int63n r n = Returns pos → 0 < n.
Proof. unfold Int63n. destruct (Z.leb_spec n 0); [done | lia]. Qed.

(** C4. With a filter, no projection and the total requested, the second
    statement counts the whole table: its WHERE clause is taken from the
    projection argument, not from the filter. *)
Theorem count_statement_reads_projection :
  (run (Json.GetPageByFilter (json_dummies_on empty_table_pool) ""
          (AVal (VStr "key='1'")) (Some want_total) ANil ANil)).2
  = [("SELECT * FROM " +:+ QuoteIdentifier "dummies" +:+ " WHERE key='1' LIMIT 100", []);
     ("SELECT COUNT(*) AS count FROM " +:+ QuoteIdentifier "dummies", [])]
  ∧ (run (Reflect.GetPageByFilter (dummies_on empty_table_pool) ""
            (AVal (VStr "key='1'")) (Some want_total) ANil ANil)).2
    = [("SELECT * FROM " +:+ QuoteIdentifier "dummies" +:+ " WHERE key='1' LIMIT 100", []);
       ("SELECT COUNT(*) AS count FROM " +:+ QuoteIdentifier "dummies", [])]
  ∧ (run (Json.GetPageByFilter (json_dummies_on empty_table_pool) ""
            (AVal (VStr "key='1'")) (Some want_total) ANil (AVal (VStr "content")))).2
    = [("SELECT content FROM " +:+ QuoteIdentifier "dummies" +:+ " WHERE key='1' LIMIT 100", []);
       ("SELECT COUNT(*) AS count FROM " +:+ QuoteIdentifier "dummies"
        +:+ " WHERE content", [])].
Proof. repeat split; vm_compute; reflexivity. Qed.

End Reads.

Section Identified.

(** Create, Set and Update given nil, and UpdatePartially given a nil id,
    return (nil, nil) and send nothing. *)
Lemma nil_arguments_are_absent `{Commons} (rt : Runtime)
  (c : Identifiable.IdentifiablePostgresPersistence) (cid : string)
  (data : option (gmap string value)) (j : list Stmt) :
  Identifiable.Create rt c cid ANil j = (Returns (Item ANil, None), j)
  ∧ Identifiable.Set_ rt c cid ANil j = (Returns (Item ANil, None), j)
  ∧ Identifiable.Update rt c cid ANil j = (Returns (Item ANil, None), j)
  ∧ Identifiable.UpdatePartially rt c cid VNil data j = (Returns (Item ANil, None), j).
Proof. repeat split. Qed.

(** C7. UpdatePartially with an id and nil data panics on [data.Value()]
    before any statement is sent; DeleteByIds with no ids still sends a
    DELETE with an empty IN list and returns what the pool answers. *)
Theorem UpdatePartially_nil_data_panics :
  run (Identifiable.UpdatePartially fixed_runtime (identifiable_on empty_table_pool)
         "" (VStr "1") None)
  = (Panics "nil pointer dereference", [])
  ∧ run (Identifiable.DeleteByIds (identifiable_on rejecting_pool) "" [])
    = (Returns (Some (DriverError "syntax error")),
       [("DELETE FROM " +:+ QuoteIdentifier "dummies" +:+ " WHERE "
         +:+ dq +:+ "Id" +:+ dq +:+ " IN()", [])]).
Proof. split; vm_compute; reflexivity. Qed.

(** Whatever the engine and the id, nil data makes UpdatePartially panic. *)
Lemma UpdatePartially_needs_data `{Commons} (rt : Runtime)
  (c : Identifiable.IdentifiablePostgresPersistence) (cid : string) (id : value)
  (j : list Stmt) :
  value_is_nil id = false →
  Identifiable.UpdatePartially rt c cid id None j
  = (Panics "nil pointer dereference", j).
Proof. intros Hid. unfold Identifiable.UpdatePartially. by rewrite Hid. Qed.

(** C8. When the statement succeeds and the row cannot be decoded, Update,
    UpdatePartially and DeleteById return the error in the item slot with a
    nil error, where GetOneById and Set return (nil, error). *)
Theorem decode_failure_lands_in_item_slot :
  (run (Identifiable.Update fixed_runtime (identifiable_on undecodable_pool) ""
          two_columns)).1
  = Returns (ErrorValue (DriverError "cannot decode row"), None)
  ∧ (run (Identifiable.UpdatePartially fixed_runtime
            (identifiable_on undecodable_pool) "" (VStr "1")
            (Some (<["Key" := VStr "k"]> ∅)))).1
    = Returns (ErrorValue (DriverError "cannot decode row"), None)
  ∧ (run (Identifiable.DeleteById (identifiable_on undecodable_pool) "" (VStr "1"))).1
    = Returns (ErrorValue (DriverError "cannot decode row"), None)
  ∧ (run (Identifiable.GetOneById (identifiable_on undecodable_pool) "" (VStr "1"))).1
    = Returns (Item ANil, Some (DriverError "cannot decode row"))
  ∧ (run (Identifiable.Set_ fixed_runtime (identifiable_on undecodable_pool) ""
            two_columns)).1
    = Returns (Item ANil, Some (DriverError "cannot decode row")).
Proof. repeat split; vm_compute; reflexivity. Qed.

(** For every engine and pool: a row that fails to decode after a
    successful DELETE comes back as the item, with a nil error. *)
Lemma DeleteById_boxes_decode_error `{Commons}
  (c : Identifiable.IdentifiablePostgresPersistence) (cid : string) (id : value)
  (pool : Pool) (qResult : Rows) (vals : list value) (e : error)
  (more : list (list value * option error)) (j : list Stmt) :
  Reflect.Client (Identifiable.base c) = Some pool →
  pool ("DELETE FROM " +:+ QuoteIdentifier (Reflect.TableName (Identifiable.base c))
        +:+ " WHERE " +:+ Identifiable.id_is "=$1 RETURNING *") [id]
  = (qResult, None) →
  pending qResult = (vals, Some e) :: more →
  (Identifiable.DeleteById c cid id j).1 = Returns (ErrorValue e, None).
Proof.
  intros Hclient Hpool Hrow. unfold Identifiable.DeleteById.
  rewrite Hclient. unfold mbind, Exec_bind, Query. rewrite Hpool, Hrow. done.
Qed.

End Identified.

Section Resolving.

(** C5. A connection with host and port whose database parameter is absent
    makes validateConnection, and with it Resolve, panic on the nil pointer
    instead of reporting NO_DATABASE. *)
Theorem validateConnection_panics_without_database :
  Resolver.validateConnection ""
    {| Resolver.Uri := ""; Resolver.Host := "localhost"; Resolver.Port := 5432;
       Resolver.Database := None |}
  = Panics "nil pointer dereference"
  ∧ ∀ ParseConfig credential,
      Resolver.Resolve ParseConfig ""
        ([{| Resolver.Uri := ""; Resolver.Host := "localhost";
             Resolver.Port := 5432; Resolver.Database := None |}], None)
        (credential, None)
      = Panics "nil pointer dereference".
Proof. split; [reflexivity | intros; reflexivity]. Qed.

(** The other kinds are reported as the specification says: the empty list,
    a missing host, a zero port and an empty database. *)
Lemma validation_reports (cid : string) (connection : Resolver.ConnectionParams) :
  Resolver.validateConnections cid []
  = Returns (Some (ConfigError "NO_CONNECTION" "Database connection is not set"))
  ∧ (Resolver.Uri connection = "" → Resolver.Host connection = "" →
     Resolver.validateConnection cid connection
     = Returns (Some (ConfigError "NO_HOST" "Connection host is not set")))
  ∧ (Resolver.Uri connection = "" → Resolver.Host connection ≠ "" →
     Resolver.Port connection = 0 →
     Resolver.validateConnection cid connection
     = Returns (Some (ConfigError "NO_PORT" "Connection port is not set")))
  ∧ (Resolver.Uri connection = "" → Resolver.Host connection ≠ "" →
     Resolver.Port connection ≠ 0 → Resolver.Database connection = Some "" →
     Resolver.validateConnection cid connection
     = Returns (Some (ConfigError "NO_DATABASE" "Connection database is not set"))).
Proof.
  unfold Resolver.validateConnection. split; [done|].
  destruct connection as [uri host port database]; simpl.
  repeat split; intros; subst; simpl; try done.
  - destruct host; done.
  - destruct host; [done|]. simpl. by destruct (Z.eqb_spec port 0).
Qed.

End Resolving.

Section Lifecycle.
Context `{Commons} {Conn : Type} `{!ConnectionApi Conn}.

Lemma GetOneRandom_integer_count_panics (rt : Runtime)
  (c : @Json.PostgresPersistence _ Conn) (cid : string) (filter : any) (pool : Pool)
  (qResult : Rows) (n : Z) (more : list (list value * option error))
  (j : list Stmt) :
  Json.Client c = Some pool →
  pool (add_clause ("SELECT COUNT(*) AS count FROM "
                    +:+ QuoteIdentifier (Json.TableName c))
          " WHERE " (clause_text filter)) [] = (qResult, None) →
  pending qResult = ([VInt n], None) :: more →
  (Json.GetOneRandom rt c cid filter j).1 = Panics "invalid argument to Int63n".
Proof.
  intros Hclient Hpool Hrow. unfold Json.GetOneRandom.
  rewrite Hclient. unfold mbind, Exec_bind, Query. rewrite Hpool, Hrow. done.
Qed.

(** When Open returns an error the engine reports closed, and it holds no
    pool unless it held one on entry. *)
Lemma Open_closed_on_error (c : @Json.PostgresPersistence _ Conn) (cid : string)
  (j : list Stmt) (c' : @Json.PostgresPersistence _ Conn) (e : error)
  (j' : list Stmt) :
  Json.Open c cid j = (Returns (c', Some e), j') →
  Json.IsOpen c' = false ∧ (Json.Client c = None → Json.Client c' = None).
Proof.
  unfold Json.IsOpen, Json.Open.
  destruct (Json.opened c) eqn:Hopened; [by inversion 1|].
  unfold mbind, Exec_bind, mret, Exec_ret, panic.
  destruct (Json.Connection c) as [conn|] eqn:Hconn; simpl.
  - destruct (Json.localConnection c) eqn:Hlocal; simpl; rewrite Hconn; simpl.
    + destruct (conn_Open conn cid) as [conn' [e1|]]; simpl; [by inversion 1|].
      destruct (conn_IsOpen conn'); simpl; [|by inversion 1].
      match goal with
      | |- context [Json.AutoCreateObjects ?c0 cid j] =>
          destruct (Json.AutoCreateObjects c0 cid j) as [[[cause|]|r] j0]
      end; by inversion 1.
    + destruct (conn_IsOpen conn); simpl; [|by inversion 1].
      match goal with
      | |- context [Json.AutoCreateObjects ?c0 cid j] =>
          destruct (Json.AutoCreateObjects c0 cid j) as [[[cause|]|r] j0]
      end; by inversion 1.
  - destruct (conn_Open (Json.createConnection c) cid) as [conn' [e1|]]; simpl;
      [by inversion 1|].
    destruct (conn_IsOpen conn'); simpl; [|by inversion 1].
    match goal with
    | |- context [Json.AutoCreateObjects ?c0 cid j] =>
        destruct (Json.AutoCreateObjects c0 cid j) as [[[cause|]|r] j0]
    end; by inversion 1.
Qed.

(** C9. Open on an open engine returns nil at once and leaves the engine
    and the journal as they were; and when Open returns an error the engine
    reports closed, and holds no pool if it held none on entry. *)
Theorem Open_idle_when_open_and_closed_on_error
  (c : @Json.PostgresPersistence _ Conn) (cid : string) (j : list Stmt) :
  (Json.IsOpen c = true → Json.Open c cid j = (Returns (c, None), j))
  ∧ (∀ c' e j', Json.Open c cid j = (Returns (c', Some e), j') →
       Json.IsOpen c' = false
       ∧ (Json.Client c = None → Json.Client c' = None)).
Proof.
  split.
  - unfold Json.IsOpen, Json.Open. by intros ->.
  - intros c' e j'. apply Open_closed_on_error.
Qed.

(** C10. Both revisions of Configure read "collection" and then "table",
    each with the name so far as default: "table" wins when both carry a
    value, the one that is set is used otherwise, and the constructor's name
    stays when neither is set. *)
Theorem Configure_table_overrides_collection (c : @Json.PostgresPersistence _ Conn)
  (c1 : Reflect.PostgresPersistence) (cfg : ConfigParams) :
  table_rule (SetDefaults cfg (Json.defaultConfig c))
    (Json.TableName c) (Json.TableName (Json.Configure c cfg))
  ∧ table_rule (SetDefaults cfg (Reflect.defaultConfig c1))
      (Reflect.TableName c1) (Reflect.TableName (Reflect.Configure c1 cfg)).
Proof.
  unfold table_rule, carries, unset. simpl.
  repeat split; intros; repeat match goal with Hget : ∀ d, _ = _ |- _ =>
    rewrite Hget; clear Hget end; reflexivity.
Qed.

(** Create sends one INSERT whose arguments are the record's values in the
    order of the columns named in its text, with one placeholder per field. *)
Lemma Create_sends_values_in_column_order (rt : Runtime)
  (c : @Json.PostgresPersistence _ Conn) (cid : string) (item : any)
  (items : gmap string value) (pool : Pool) (j : list Stmt) :
  is_nil item = false →
  fair (range_order rt 0) →
  Json.convertToMap (Json.ConvertFromPublic c item) = Some items →
  items ≠ ∅ →
  (∀ name, name ∈ dom items → name ≠ "" ∧ plain_name name) →
  Json.Client c = Some pool →
  (Json.Create rt c cid item j).2
  = j ++ [("INSERT INTO " +:+ QuoteIdentifier (Json.TableName c)
           +:+ " (" +:+ columns_loop (range_order rt 0 items)
           +:+ ") VALUES (" +:+ param_loop (size items) +:+ ") RETURNING *",
           map (map_index items) (range_order rt 0 items))].
Proof.
  intros Hitem Hfair Hmap Hne Hnames Hclient. unfold Json.Create.
  rewrite Hitem.
  destruct (GenerateValues_of_columns (range_order rt 0)
              (Json.ConvertFromPublic c item) items) as (Hcols & _ & Hvals);
    [done..|].
  unfold mbind, Exec_bind, lift. rewrite Hvals, Hclient.
  rewrite (GenerateParameters_of_record _ items Hmap), Hcols.
  unfold Query.
  match goal with
  | |- context [pool ?q ?a] => destruct (pool q a) as [qResult [e|]]
  end; simpl; [done|].
  destruct (pending qResult) as [|current more]; simpl; [done|].
  unfold lift. by destruct (Json.ConvertToPublic c _ _ _).
Qed.

(** The engine as constructed holds no pool, and Configure, Open and Close
    keep a closed engine without one. *)
Lemma closed_holds_no_pool_kept (c : @Json.PostgresPersistence _ Conn)
  (cfg : ConfigParams) (cid : string) (j : list Stmt) :
  closed_holds_no_pool c →
  closed_holds_no_pool (Json.Configure c cfg)
  ∧ closed_holds_no_pool (Json.Close c cid).1
  ∧ ∀ c' err j', Json.Open c cid j = (Returns (c', err), j') →
      closed_holds_no_pool c'.
Proof.
  unfold closed_holds_no_pool. intros Htidy. split; [exact Htidy|]. split.
  - unfold Json.Close. destruct (Json.opened c) eqn:Hopened; simpl; [|auto].
    destruct (Json.Connection c) as [conn|]; simpl; [|by rewrite Hopened].
    destruct (Json.localConnection c); simpl.
    + destruct (conn_Close conn cid) as [conn' [e|]]; simpl; [|done].
      by rewrite Hopened.
    + done.
  - intros c' err j' Hrun. destruct err as [e|].
    + destruct (Open_closed_on_error c cid j c' e j' Hrun) as [_ Hclient].
      intros _. destruct (Json.opened c) eqn:Hopened.
      * unfold Json.Open in Hrun. rewrite Hopened in Hrun. by inversion Hrun.
      * by apply Hclient, Htidy.
    + intros Hclosed. exfalso. revert Hrun Hclosed. unfold Json.Open.
      destruct (Json.opened c) eqn:Hopened.
      { inversion 1; subst. congruence. }
      unfold mbind, Exec_bind, mret, Exec_ret, panic.
      destruct (Json.Connection c) as [conn|] eqn:Hconn; simpl.
      * destruct (Json.localConnection c) eqn:Hlocal; simpl; rewrite Hconn; simpl.
        -- destruct (conn_Open conn cid) as [conn' [e1|]]; simpl; [by inversion 1|].
           destruct (conn_IsOpen conn'); simpl; [|by inversion 1].
           match goal with
           | |- context [Json.AutoCreateObjects ?c0 cid j] =>
               destruct (Json.AutoCreateObjects c0 cid j) as [[[cause|]|r] j0]
           end; inversion 1; subst; done.
        -- destruct (conn_IsOpen conn); simpl; [|by inversion 1].
           match goal with
           | |- context [Json.AutoCreateObjects ?c0 cid j] =>
               destruct (Json.AutoCreateObjects c0 cid j) as [[[cause|]|r] j0]
           end; inversion 1; subst; done.
      * destruct (conn_Open (Json.createConnection c) cid) as [conn' [e1|]];
          simpl; [by inversion 1|].
        destruct (conn_IsOpen conn'); simpl; [|by inversion 1].
        match goal with
        | |- context [Json.AutoCreateObjects ?c0 cid j] =>
            destruct (Json.AutoCreateObjects c0 cid j) as [[[cause|]|r] j0]
        end; inversion 1; subst; done.
Qed.

End Lifecycle.

Section Examples.
#[local] Existing Instance plain_commons.
#[local] Existing Instance sim_connection_api.

(** C9 on an open engine, and on a closed one whose connection refuses to
    open. *)
Lemma Open_idle_when_open_and_closed_on_error_witness :
  Json.Open (json_dummies_on empty_table_pool) "" []
  = (Returns (json_dummies_on empty_table_pool, None), [])
  ∧ ∃ c' e j',
      Json.Open (json_dummies_with refusing_connection []) "" []
      = (Returns (c', Some e), j')
      ∧ Json.IsOpen c' = false
      ∧ (Json.Client (json_dummies_with refusing_connection []) = None →
         Json.Client c' = None).
Proof.
  split.
  - apply (proj1 (Open_idle_when_open_and_closed_on_error
                    (json_dummies_on empty_table_pool) "" [])).
    reflexivity.
  - eexists _, _, _. split; [reflexivity|].
    apply (proj2 (Open_idle_when_open_and_closed_on_error
                    (json_dummies_with refusing_connection []) "" [])
             _ (DriverError "connection refused") []).
    reflexivity.
Defined.

(** The three ways Open fails, and the way it succeeds, on the simulated
    connection: what it returns, whether the engine reports open, and the
    statements sent. *)
Lemma Open_outcomes :
  let report (c : Json.PostgresPersistence) :=
    match Json.Open c "" [] with
    | (Returns (c', err), j') =>
        Some (err, Json.IsOpen c', bool_decide (Json.Client c' = None), j')
    | (Panics _, _) => None
    end in
  report (json_dummies_with refusing_connection [])
  = Some (Some (DriverError "connection refused"), false, true, [])
  ∧ report (json_dummies_with sleeping_connection [])
    = Some (Some (ConnectionError "CONNECT_FAILED"
                    "PostgreSQL connection is not opened"), false, true, [])
  ∧ report (json_dummies_with (connection_to rejecting_pool) [create_table])
    = Some (Some (WithCause (ConnectionError "CONNECT_FAILED"
                               "Connection to postgres failed")
                    (DriverError "syntax error")), false, true,
            [("SELECT to_regclass('dummies')", [])])
  ∧ report (json_dummies_with (connection_to (provisioned_pool "dummies"))
              [create_table])
    = Some (None, true, false, [("SELECT to_regclass('dummies')", [])])
  ∧ report (json_dummies_with (connection_to empty_table_pool) [create_table])
    = Some (None, true, false,
            [("SELECT to_regclass('dummies')", []); (create_table, [])]).
Proof. repeat split; vm_compute; reflexivity. Qed.

(** C10 on the four configurations: both keys, either one, none. *)
Lemma Configure_table_overrides_collection_witness :
  Json.TableName (Json.Configure json_dummies
                    (config_of [("collection", "a"); ("table", "b")])) = "b"
  ∧ Json.TableName (Json.Configure json_dummies (config_of [("collection", "a")]))
    = "a"
  ∧ Json.TableName (Json.Configure json_dummies (config_of [("table", "b")])) = "b"
  ∧ Json.TableName (Json.Configure json_dummies (config_of [])) = "dummies"
  ∧ Reflect.TableName (Reflect.Configure (dummies_on empty_table_pool)
                         (config_of [("collection", "a"); ("table", "b")])) = "b".
Proof.
  pose proof (λ cfg, Configure_table_overrides_collection json_dummies
                       (dummies_on empty_table_pool) cfg) as Hrule.
  split.
  { destruct (Hrule (config_of [("collection", "a"); ("table", "b")]))
      as [(Hboth & _) _].
    apply (Hboth "a" "b"); intros d; reflexivity. }
  split.
  { destruct (Hrule (config_of [("collection", "a")])) as [(_ & Hcoll & _) _].
    apply (Hcoll "a"); intros d; reflexivity. }
  split.
  { destruct (Hrule (config_of [("table", "b")])) as [(_ & _ & Htable & _) _].
    apply (Htable "b"); intros d; reflexivity. }
  split.
  { destruct (Hrule (config_of [])) as [(_ & _ & _ & Hnone) _].
    apply Hnone; intros d; reflexivity. }
  destruct (Hrule (config_of [("collection", "a"); ("table", "b")]))
    as [_ (Hboth & _)].
  apply (Hboth "a" "b"); intros d; reflexivity.
Defined.

End Examples.

(** * Further properties of the engine *)

Section EngineLifecycle.
Context `{Commons} {Conn : Type} `{!ConnectionApi Conn}.

Ltac exec_unfold := unfold mbind, Exec_bind, mret, Exec_ret, panic, lift, Query.

Ltac provision c0 cid j :=
  match goal with
  | |- context [Json.AutoCreateObjects ?c1 cid j] =>
      destruct (Json.AutoCreateObjects c1 cid j) as [[[?cause|]|?r] ?j0]
  end.

(** X1. When Open on a closed engine returns nil, the engine reports open,
    its connection is open, and its pool and database name are the ones the
    connection hands out. *)
Theorem Open_success_binds_pool (c c' : @Json.PostgresPersistence _ Conn)
  (cid : string) (j j' : list Stmt) :
  Json.opened c = false →
  Json.Open c cid j = (Returns (c', None), j') →
  Json.IsOpen c' = true
  ∧ ∃ conn, Json.Connection c' = Some conn
      ∧ conn_IsOpen conn = true
      ∧ Json.Client c' = conn_GetConnection conn
      ∧ Json.DatabaseName c' = conn_GetDatabaseName conn.
Proof.
  intros Hclosed. unfold Json.IsOpen, Json.Open. rewrite Hclosed. exec_unfold.
  destruct (Json.Connection c) as [conn|] eqn:Hconn; simpl.
  - destruct (Json.localConnection c) eqn:Hlocal; simpl; rewrite Hconn; simpl.
    + destruct (conn_Open conn cid) as [conn' [e1|]]; simpl; [by inversion 1|].
      destruct (conn_IsOpen conn') eqn:Hup; simpl; [|by inversion 1].
      provision c cid j; inversion 1; subst; simpl.
      split; [done|]. by exists conn'.
    + destruct (conn_IsOpen conn) eqn:Hup; simpl; [|by inversion 1].
      provision c cid j; inversion 1; subst; simpl.
      split; [done|]. by exists conn.
  - destruct (conn_Open (Json.createConnection c) cid) as [conn' [e1|]]; simpl;
      [by inversion 1|].
    destruct (conn_IsOpen conn') eqn:Hup; simpl; [|by inversion 1].
    provision c cid j; inversion 1; subst; simpl.
    split; [done|]. by exists conn'.
Qed.

(** X2. Close on a closed engine changes nothing; when Close returns nil the
    engine reports closed and an engine that was open has dropped its pool;
    when Close returns an error the engine stays open with its pool. *)
Theorem Close_outcomes (c c' : @Json.PostgresPersistence _ Conn) (cid : string)
  (err : option error) :
  Json.Close c cid = (c', err) →
  (Json.opened c = false → c' = c ∧ err = None)
  ∧ (err = None →
     Json.opened c' = false ∧ (Json.opened c = true → Json.Client c' = None))
  ∧ (err ≠ None → Json.opened c' = true ∧ Json.Client c' = Json.Client c).
Proof.
  unfold Json.Close. destruct (Json.opened c) eqn:Hopened; simpl.
  - destruct (Json.Connection c) as [conn|]; simpl.
    + destruct (Json.localConnection c); simpl.
      * destruct (conn_Close conn cid) as [conn' [e|]]; simpl;
          inversion 1; subst; simpl; repeat split; try done.
      * inversion 1; subst; simpl; repeat split; done.
    + inversion 1; subst; repeat split; done.
  - inversion 1; subst. repeat split; done.
Qed.

(** X3. A connection the engine does not own is never opened or closed by
    it: Open and Close leave it as it is, and when it is not open Open fails
    with CONNECT_FAILED without sending a statement. *)
Theorem external_connection_untouched (c : @Json.PostgresPersistence _ Conn)
  (conn : Conn) (cid : string) (j : list Stmt) :
  Json.localConnection c = false →
  Json.Connection c = Some conn →
  (∀ c' err j', Json.Open c cid j = (Returns (c', err), j') →
     Json.Connection c' = Some conn ∧ Json.localConnection c' = false)
  ∧ Json.Connection (Json.Close c cid).1 = Some conn
  ∧ (Json.opened c = false → conn_IsOpen conn = false →
     ∃ c', Json.Open c cid j
           = (Returns (c', Some (ConnectionError "CONNECT_FAILED"
                                   "PostgreSQL connection is not opened")), j)
           ∧ Json.IsOpen c' = false).
Proof.
  intros Hlocal Hconn. split; [|split].
  - intros c' err j'. unfold Json.Open.
    destruct (Json.opened c); [by inversion 1; subst|].
    rewrite Hconn, Hlocal. exec_unfold. simpl. rewrite Hconn. simpl.
    destruct (conn_IsOpen conn); simpl; [|by inversion 1; subst].
    provision c cid j; inversion 1; subst; done.
  - unfold Json.Close. destruct (Json.opened c); simpl; [|done].
    by rewrite Hconn, Hlocal.
  - intros Hclosed Hdown. unfold Json.Open.
    rewrite Hclosed, Hconn, Hlocal. exec_unfold. simpl. rewrite Hconn. simpl.
    rewrite Hdown. simpl. by eexists.
Qed.

Lemma create_objects_journal (pool : Pool) (dmls : list string) (j : list Stmt) :
  Json.create_objects (Some pool) dmls j
  = (Returns tt, j ++ map (λ dml, (dml, [])) dmls).
Proof.
  revert j. induction dmls as [|dml rest IH]; intros j; simpl.
  - by rewrite app_nil_r.
  - exec_unfold. rewrite IH. by rewrite <- app_assoc.
Qed.

(** X4. Schema provisioning: with nothing registered no statement is sent;
    when the probe names the table only the probe is sent; otherwise the
    probe is followed by every registered statement in registration order,
    and the result is the probe cursor's final error whatever the pool
    answers to those statements. *)
Theorem provisioning_journal (c : @Json.PostgresPersistence _ Conn)
  (cid : string) (pool : Pool) (qResult : Rows) (j : list Stmt) :
  Json.Client c = Some pool →
  pool ("SELECT to_regclass('" +:+ Json.TableName c +:+ "')") [] = (qResult, None) →
  (Json.autoObjects c = [] → Json.AutoCreateObjects c cid j = (Returns None, j))
  ∧ (Json.autoObjects c ≠ [] →
     ∀ val more, pending qResult = (val, None) :: more →
       first_is val (Json.TableName c) = true →
       Json.AutoCreateObjects c cid j
       = (Returns None,
          j ++ [("SELECT to_regclass('" +:+ Json.TableName c +:+ "')", [])]))
  ∧ (Json.autoObjects c ≠ [] →
     (pending qResult = []
      ∨ ∃ val more, pending qResult = (val, None) :: more
                    ∧ first_is val (Json.TableName c) = false) →
     Json.AutoCreateObjects c cid j
     = (Returns (rows_err qResult),
        (j ++ [("SELECT to_regclass('" +:+ Json.TableName c +:+ "')", [])])
        ++ map (λ dml, (dml, [])) (Json.autoObjects c))).
Proof.
  intros Hclient Hprobe. unfold Json.AutoCreateObjects. split; [|split].
  - by intros ->.
  - intros Hsome val more Hrow Hknown.
    destruct (Json.autoObjects c) as [|d ds]; [done|]. simpl.
    rewrite Hclient. exec_unfold. rewrite Hprobe, Hrow, Hknown.
    destruct val; [done|]. done.
  - intros Hsome Hrows.
    destruct (Json.autoObjects c) as [|d ds] eqn:Hobjs; [done|].
    rewrite bool_decide_eq_false_2 by done.
    rewrite Hclient. exec_unfold. rewrite Hprobe.
    destruct Hrows as [-> | (val & more & -> & Hunknown)].
    + fold (@Json.create_objects). rewrite create_objects_journal. done.
    + rewrite Hunknown, andb_false_r.
      fold (@Json.create_objects). rewrite create_objects_journal. done.
Qed.

End EngineLifecycle.

Section EngineRegistry.
Context `{Commons} {Conn : Type} `{!ConnectionApi Conn}.

Ltac exec_unfold := unfold mbind, Exec_bind, mret, Exec_ret, panic, lift, Query.

(** X5. SetReferences without a connection dependency creates a local
    connection on a fresh engine; called a second time it keeps that
    connection but marks it as not owned, so that Open no longer opens it:
    on a connection that is not open Open then fails with CONNECT_FAILED and
    sends nothing. *)
Theorem repeated_SetReferences_disowns_connection
  (c : @Json.PostgresPersistence _ Conn) (refs : option References)
  (cid : string) (j : list Stmt) :
  Json.Connection c = None →
  Json.opened c = false →
  let c1 := Json.SetReferences c refs None in
  let c2 := Json.SetReferences c1 refs None in
  Json.localConnection c1 = true
  ∧ Json.localConnection c2 = false
  ∧ Json.Connection c2 = Json.Connection c1
  ∧ ∃ conn, Json.Connection c1 = Some conn
      ∧ (conn_IsOpen conn = false →
         ∃ c', Json.Open c2 cid j
               = (Returns (c', Some (ConnectionError "CONNECT_FAILED"
                                       "PostgreSQL connection is not opened")), j)
               ∧ Json.Connection c' = Some conn).
Proof.
  intros Hnone Hclosed. cbv zeta. unfold Json.Open, Json.SetReferences. simpl.
  rewrite Hnone. simpl. rewrite Hclosed.
  split; [done|]. split; [done|]. split; [done|].
  eexists. split; [reflexivity|]. intros Hdown.
  exec_unfold. simpl. rewrite Hdown. simpl. by eexists.
Qed.

Lemma lone_key (ko : KeyOrder) (key asc : string) :
  fair_keys ko → ko {[key := asc]} = [key].
Proof.
  intros Hfair. specialize (Hfair {[key := asc]}).
  rewrite map_to_list_singleton in Hfair. simpl in Hfair.
  by apply Permutation_singleton_r in Hfair.
Qed.

(** X6. EnsureIndex on one key appends one CREATE INDEX statement after
    those already registered.  The later revision writes the key as given
    and adds DESC unless the direction is exactly "1"; the reflective
    revision quotes the key and adds DESC for every non-empty direction,
    "1" included. *)
Theorem EnsureIndex_direction (ko : KeyOrder)
  (c : @Json.PostgresPersistence _ Conn) (c1 : Reflect.PostgresPersistence)
  (name key asc : string) :
  fair_keys ko →
  Json.autoObjects (Json.EnsureIndex ko c name {[key := asc]} None)
  = Json.autoObjects c
    ++ ["CREATE" +:+ " INDEX IF NOT EXISTS " +:+ name +:+ " ON "
        +:+ QuoteIdentifier (Json.TableName c) +:+ "("
        +:+ (if String.eqb asc "1" then key else key +:+ " DESC") +:+ ")"]
  ∧ Reflect.autoObjects (Reflect.EnsureIndex ko c1 name {[key := asc]} None)
    = Reflect.autoObjects c1
      ++ ["CREATE" +:+ " INDEX IF NOT EXISTS " +:+ name +:+ " ON "
          +:+ QuoteIdentifier (Reflect.TableName c1) +:+ "("
          +:+ (if is_empty asc then QuoteIdentifier key
               else QuoteIdentifier key +:+ " DESC") +:+ ")"].
Proof.
  intros Hfair. unfold Json.EnsureIndex, Reflect.EnsureIndex.
  rewrite (lone_key ko key asc Hfair). simpl.
  rewrite lookup_singleton_eq. unfold option_of. simpl.
  rewrite !lookup_empty. simpl.
  assert (Hnil : ∀ s : string, "" +:+ s = s) by done.
  rewrite !Hnil, !append_assoc.
  split; do 2 f_equal.
Qed.

End EngineRegistry.

Section Cursors.
Context `{Commons}.

Lemma row_buffer_returns (cols : list string) (values : list value)
  (buf : gmap string value) :
  (length cols ≤ length values)%nat →
  ∃ buf', row_buffer cols values buf = Returns buf'.
Proof.
  revert values buf. induction cols as [|col cols IH]; intros values buf Hlen.
  - by eexists.
  - destruct values as [|v values]; simpl in *; [lia|]. apply IH. lia.
Qed.

Lemma Reflect_convert_all_ahead (c : Reflect.PostgresPersistence)
  (qResult : Rows) (rest : list (list value * option error)) :
  (∀ r, r ∈ rest → r.2 = None →
     (length (field_names qResult) ≤ length r.1)%nat) →
  ∃ items, Reflect.convert_all c qResult rest = Returns items
           ∧ length items = length (ahead rest)
           ∧ ∀ i vals, ahead rest !! i = Some vals →
               ∃ buf, row_buffer (field_names qResult) vals ∅ = Returns buf
                      ∧ items !! i = Some (Decode (Reflect.Proto c) buf).
Proof.
  induction rest as [|[vals [e|]] rest IH]; intros Hwide.
  - exists []. by repeat split.
  - exists []. by repeat split.
  - destruct IH as (items & Hitems & Hlen & Hdecoded).
    { intros r Hr. apply Hwide. by right. }
    destruct (row_buffer_returns (field_names qResult) vals ∅) as [buf Hbuf].
    { apply (Hwide (vals, None)); [by left | done]. }
    exists (Decode (Reflect.Proto c) buf :: items).
    split; [|split].
    + simpl. unfold Reflect.ConvertFromRows. rewrite Hbuf. simpl.
      by rewrite Hitems.
    + simpl. by rewrite Hlen.
    + intros [|i] vals'; simpl.
      * intros [= <-]. by exists buf.
      * apply Hdecoded.
Qed.

(** X7. The reflective GetListByFilter sends one statement.  A row whose
    values cannot be read ends the reading: the items returned are the rows
    ahead of it, decoded in order, the rows behind it are lost, and once the
    statement has succeeded no error is returned. *)
Theorem Reflect_list_stops_at_unreadable_row (c : Reflect.PostgresPersistence)
  (cid : string) (filter sort sel : any) (pool : Pool) (j : list Stmt) :
  Reflect.Client c = Some pool →
  ∃ q, (Reflect.GetListByFilter c cid filter sort sel j).2 = j ++ [(q, [])]
       ∧ (∀ qResult e, pool q [] = (qResult, Some e) →
            (Reflect.GetListByFilter c cid filter sort sel j).1
            = Returns ([], Some e))
       ∧ (∀ qResult, pool q [] = (qResult, None) → complete qResult →
            ∃ items,
              (Reflect.GetListByFilter c cid filter sort sel j).1
              = Returns (items, None)
              ∧ length items = length (readable qResult)
              ∧ ∀ i vals, readable qResult !! i = Some vals →
                  ∃ buf, row_buffer (field_names qResult) vals ∅ = Returns buf
                         ∧ items !! i = Some (Decode (Reflect.Proto c) buf)).
Proof.
  intros Hclient. unfold Reflect.GetListByFilter. rewrite Hclient.
  unfold mbind, Exec_bind, mret, Exec_ret, lift, Query.
  eexists. split; [|split].
  - match goal with
    | |- context [pool ?q ?a] => destruct (pool q a) as [qResult [e|]]
    end; simpl; [reflexivity|].
    by destruct (Reflect.convert_all c qResult (pending qResult)).
  - intros qResult e ->. reflexivity.
  - intros qResult -> Hcomplete. simpl.
    destruct (Reflect_convert_all_ahead c qResult (pending qResult))
      as (items & -> & Hlen & Hdecoded); [exact Hcomplete|].
    by exists items.
Qed.

(** X8. GetListByIds sends one statement whose arguments are the ids as
    given; like the list read it returns the rows ahead of the first
    unreadable one, decoded in order, and no error once the statement has
    succeeded. *)
Theorem GetListByIds_stops_at_unreadable_row
  (c : Identifiable.IdentifiablePostgresPersistence) (cid : string)
  (ids : list value) (pool : Pool) (j : list Stmt) :
  Reflect.Client (Identifiable.base c) = Some pool →
  ∃ q, (Identifiable.GetListByIds c cid ids j).2 = j ++ [(q, ids)]
       ∧ (∀ qResult e, pool q ids = (qResult, Some e) →
            (Identifiable.GetListByIds c cid ids j).1 = Returns ([], Some e))
       ∧ (∀ qResult, pool q ids = (qResult, None) → complete qResult →
            ∃ items,
              (Identifiable.GetListByIds c cid ids j).1 = Returns (items, None)
              ∧ length items = length (readable qResult)
              ∧ ∀ i vals, readable qResult !! i = Some vals →
                  ∃ buf, row_buffer (field_names qResult) vals ∅ = Returns buf
                         ∧ items !! i
                           = Some (Decode (Reflect.Proto (Identifiable.base c)) buf)).
Proof.
  intros Hclient. unfold Identifiable.GetListByIds. simpl. rewrite Hclient.
  unfold mbind, Exec_bind, mret, Exec_ret, lift, Query.
  eexists. split; [|split].
  - match goal with
    | |- context [pool ?q ?a] => destruct (pool q a) as [qResult [e|]]
    end; simpl; [reflexivity|].
    by destruct (Reflect.convert_all _ qResult (pending qResult)).
  - intros qResult e ->. reflexivity.
  - intros qResult -> Hcomplete. simpl.
    destruct (Reflect_convert_all_ahead (Identifiable.base c) qResult
                (pending qResult)) as (items & -> & Hlen & Hdecoded);
      [exact Hcomplete|].
    by exists items.
Qed.

End Cursors.

Section EngineReads.
Context `{Commons} {Conn : Type} `{!ConnectionApi Conn}.

Ltac exec_unfold := unfold mbind, Exec_bind, mret, Exec_ret, panic, lift, Query.

Lemma Json_convert_all_default (c : @Json.PostgresPersistence _ Conn)
  (qResult : Rows) (rest : list (list value * option error)) :
  Json.ConvertToPublic c = Json.PerformConvertToPublic →
  (∀ r, r ∈ rest → r.2 = None →
     (length (field_names qResult) ≤ length r.1)%nat) →
  ∃ items, Json.convert_all c qResult rest = Returns items
           ∧ (∀ i vals, ahead rest !! i = Some vals →
                ∃ buf, row_buffer (field_names qResult) vals ∅ = Returns buf
                       ∧ items !! i = Some (Decode (Json.Proto c) buf))
           ∧ (failure_of rest = None → length items = length rest)
           ∧ (∀ e, failure_of rest = Some e →
                length items = S (length (ahead rest))
                ∧ items !! length (ahead rest) = Some ANil).
Proof.
  intros Hdefault.
  induction rest as [|[vals [e|]] rest IH]; intros Hwide.
  - exists []. by repeat split.
  - exists [ANil]. simpl. rewrite Hdefault. by repeat split.
  - destruct IH as (items & Hitems & Hdecoded & Hall & Hcut).
    { intros r Hr. apply Hwide. by right. }
    destruct (row_buffer_returns (field_names qResult) vals ∅) as [buf Hbuf].
    { apply (Hwide (vals, None)); [by left | done]. }
    exists (Decode (Json.Proto c) buf :: items).
    split; [|split; [|split]].
    + simpl. rewrite Hdefault. simpl. rewrite Hbuf. simpl. by rewrite Hitems.
    + intros [|i] vals'; simpl.
      * intros [= <-]. by exists buf.
      * apply Hdecoded.
    + simpl. intros Hnone. by rewrite (Hall Hnone).
    + simpl. intros e He. destruct (Hcut e He) as [Hlen Hlast].
      by rewrite Hlen.
Qed.

(** X9. With the converter the constructor installs, the later
    GetListByFilter returns the rows ahead of the first unreadable one,
    decoded in order.  When every row can be read there is one item per row
    and the error is the cursor's own; otherwise a nil item stands for the
    unreadable row, the rows behind it are lost, and the error returned is
    the failure of that row. *)
Theorem Json_list_ends_with_nil_at_unreadable_row
  (c : @Json.PostgresPersistence _ Conn) (cid : string) (filter sort sel : any)
  (pool : Pool) (j : list Stmt) :
  Json.Client c = Some pool →
  Json.ConvertToPublic c = Json.PerformConvertToPublic →
  ∃ q, (Json.GetListByFilter c cid filter sort sel j).2 = j ++ [(q, [])]
       ∧ (∀ qResult, pool q [] = (qResult, None) → complete qResult →
            ∃ items err,
              (Json.GetListByFilter c cid filter sort sel j).1
              = Returns (items, err)
              ∧ (∀ i vals, readable qResult !! i = Some vals →
                   ∃ buf, row_buffer (field_names qResult) vals ∅ = Returns buf
                          ∧ items !! i = Some (Decode (Json.Proto c) buf))
              ∧ (failure_of (pending qResult) = None →
                   length items = length (pending qResult)
                   ∧ err = rows_err qResult)
              ∧ (∀ e, failure_of (pending qResult) = Some e →
                   length items = S (length (readable qResult))
                   ∧ items !! length (readable qResult) = Some ANil
                   ∧ err = Some e)).
Proof.
  intros Hclient Hdefault. unfold Json.GetListByFilter. rewrite Hclient.
  exec_unfold. eexists. split.
  - match goal with
    | |- context [pool ?q ?a] => destruct (pool q a) as [qResult [e|]]
    end; simpl; [reflexivity|].
    by destruct (Json.convert_all c qResult (pending qResult)).
  - intros qResult -> Hcomplete. simpl.
    destruct (Json_convert_all_default c qResult (pending qResult))
      as (items & -> & Hdecoded & Hall & Hcut); [done | exact Hcomplete |].
    exists items, (Err qResult (pending qResult)).
    split; [done|]. split; [exact Hdecoded|]. unfold Err. split.
    + intros Hnone. rewrite Hnone. split; [by apply Hall | done].
    + intros e He. rewrite He. destruct (Hcut e He) as [Hlen Hlast]. done.
Qed.

Lemma no_clause (filter : any) :
  (∀ s, as_string filter = Some s → s = "") → clause_text filter = None.
Proof.
  unfold clause_text. destruct (as_string filter) as [s|]; [|done].
  intros Hs. by rewrite (Hs s eq_refl).
Qed.

(** X10. A filter that is not a non-empty string (nil, the empty string, a
    map, a number) is dropped without an error: the count, the list read and
    the random read behave as with no filter, in both revisions. *)
Theorem non_text_filter_is_no_filter (rt : Runtime)
  (c : @Json.PostgresPersistence _ Conn) (c1 : Reflect.PostgresPersistence)
  (cid : string) (filter sort sel : any) (j : list Stmt) :
  (∀ s, as_string filter = Some s → s = "") →
  Json.GetCountByFilter c cid filter j = Json.GetCountByFilter c cid ANil j
  ∧ Json.GetListByFilter c cid filter sort sel j
    = Json.GetListByFilter c cid ANil sort sel j
  ∧ Json.GetOneRandom rt c cid filter j = Json.GetOneRandom rt c cid ANil j
  ∧ Reflect.GetCountByFilter c1 cid filter j
    = Reflect.GetCountByFilter c1 cid ANil j
  ∧ Reflect.GetListByFilter c1 cid filter sort sel j
    = Reflect.GetListByFilter c1 cid ANil sort sel j
  ∧ Reflect.GetOneRandom rt c1 cid filter j
    = Reflect.GetOneRandom rt c1 cid ANil j.
Proof.
  intros Hfilter. apply no_clause in Hfilter.
  unfold Json.GetCountByFilter, Json.GetListByFilter, Json.GetOneRandom,
    Reflect.GetCountByFilter, Reflect.GetListByFilter, Reflect.GetOneRandom.
  rewrite Hfilter. change (clause_text ANil) with (@None string).
  repeat split.
Qed.

(** X11. When the total is not requested GetPageByFilter sends exactly one
    statement, and the page it returns carries the total 0 rather than no
    total. *)
Theorem page_without_total_has_zero_total
  (c : @Json.PostgresPersistence _ Conn) (cid : string) (filter : any)
  (paging : option PagingParams) (sort sel : any) (pool : Pool)
  (j : list Stmt) :
  Json.Client c = Some pool →
  PagingTotal (default NewEmptyPagingParams paging) = false →
  ∃ q, (Json.GetPageByFilter c cid filter paging sort sel j).2 = j ++ [(q, [])]
       ∧ ∀ page err,
           (Json.GetPageByFilter c cid filter paging sort sel j).1
           = Returns (Some page, err) →
           Total page = Some 0.
Proof.
  intros Hclient Htotal. unfold Json.GetPageByFilter. rewrite Hclient, Htotal.
  exec_unfold. eexists.
  match goal with
  | |- context [pool ?q ?a] => destruct (pool q a) as [qResult [e|]]
  end; simpl.
  - split; [reflexivity|]. by intros page err.
  - destruct (Json.convert_all c qResult (pending qResult)) as [items|r]; simpl.
    + split; [reflexivity|]. by intros page err [= <- _].
    + split; [reflexivity|]. by intros page err.
Qed.

(** X12. Clear refuses to run without a table name and sends nothing;
    with a table name it sends the statement DeleteByFilter sends for the
    empty filter, the DELETE of every row; DeleteByFilter has no such guard. *)
Theorem Clear_guards_table_name (c : @Json.PostgresPersistence _ Conn)
  (cid : string) (j : list Stmt) :
  (Json.TableName c = "" →
   Json.Clear c cid j = (Returns (Some (Plain "Table name is not defined")), j))
  ∧ (Json.TableName c ≠ "" →
     (Json.Clear c cid j).2 = (Json.DeleteByFilter c cid "" j).2)
  ∧ (∀ pool, Json.Client c = Some pool →
       (Json.DeleteByFilter c cid "" j).2
       = j ++ [("DELETE FROM " +:+ QuoteIdentifier (Json.TableName c), [])]).
Proof.
  unfold Json.Clear, Json.DeleteByFilter. split; [|split].
  - by intros ->.
  - intros Hname. destruct (Json.TableName c) as [|a t] eqn:Htable; [done|].
    simpl. destruct (Json.Client c) as [pool|]; exec_unfold; [|done].
    match goal with
    | |- context [pool ?q ?a] => destruct (pool q a) as [qResult [e|]]
    end; simpl; [done|]. by destruct (pending qResult).
  - intros pool ->. exec_unfold. simpl.
    match goal with
    | |- context [pool ?q ?a] => destruct (pool q a) as [qResult [e|]]
    end; simpl; [done|]. by destruct (pending qResult).
Qed.

End EngineReads.

Section Numbering.

#[local] Arguments String.append !s1 s2 : simpl nomatch.

Lemma has_char_append (c : ascii) (a b : string) :
  has_char c (a +:+ b) = has_char c a || has_char c b.
Proof.
  induction a as [|x a IH]; simpl; [done|]. by rewrite IH, orb_assoc.
Qed.

Lemma plain_append (a b : string) :
  plain_name a → plain_name b → plain_name (a +:+ b).
Proof.
  intros [Ha1 Ha2] [Hb1 Hb2]. split; rewrite has_char_append.
  - by rewrite Ha1, Hb1.
  - by rewrite Ha2, Hb2.
Qed.

Lemma digit_plain (d : Z) :
  0 <= d < 16 →
  Ascii.eqb (digit_char d) comma = false ∧ Ascii.eqb (digit_char d) dquote = false.
Proof.
  intros Hd.
  assert (d = 0 ∨ d = 1 ∨ d = 2 ∨ d = 3 ∨ d = 4 ∨ d = 5 ∨ d = 6 ∨ d = 7
          ∨ d = 8 ∨ d = 9 ∨ d = 10 ∨ d = 11 ∨ d = 12 ∨ d = 13 ∨ d = 14
          ∨ d = 15) as Hcases by lia.
  repeat (destruct Hcases as [-> | Hcases]; [by split|]). subst. by split.
Qed.

Lemma format_digits_plain (fuel : nat) (n : Z) (acc : string) :
  plain_name acc → plain_name (format_digits fuel 16 n acc).
Proof.
  revert n acc. induction fuel as [|fuel IH]; intros n acc Hacc; simpl; [done|].
  assert (plain_name (String (digit_char (n mod 16)) acc)) as Hstep.
  { destruct (digit_plain (n mod 16)) as [Hc Hq]; [by apply Z.mod_pos_bound|].
    destruct Hacc as [Hacc1 Hacc2]. split; simpl.
    - by rewrite Hc, Hacc1.
    - by rewrite Hq, Hacc2. }
  destruct (n / 16 =? 0); [done | by apply IH].
Qed.

Lemma FormatInt_plain (i : Z) : 0 <= i → plain_name (FormatInt i 16).
Proof.
  intros Hi. unfold FormatInt. destruct (Z.ltb_spec i 0); [lia|].
  by apply format_digits_plain.
Qed.

Lemma is_empty_append_r (a b : string) :
  is_empty b = false → is_empty (a +:+ b) = false.
Proof. by destruct a. Qed.

Lemma write_sep_fold {A} (f : A → string) (xs : list A) (acc : string) :
  is_empty acc = false →
  fold_left (λ result x, write_sep result (f x)) xs acc
  = acc +:+ join_tail id (map f xs).
Proof.
  revert acc. induction xs as [|x xs IH]; intros acc Hacc; simpl.
  - by rewrite append_nil_r.
  - unfold write_sep at 2. rewrite Hacc, IH.
    + unfold id at 2. by rewrite !append_assoc.
    + by do 2 apply is_empty_append.
Qed.

Lemma placeholder_plain (i : nat) :
  plain_name ("$" +:+ FormatInt (Z.of_nat i) 16).
Proof. apply plain_append; [by split | apply FormatInt_plain; lia]. Qed.

Lemma param_loop_split (n : nat) :
  (0 < n)%nat → Split comma (param_loop n) = placeholders n.
Proof.
  intros Hn. unfold param_loop, placeholders.
  destruct n as [|n]; [lia|]. simpl seq. simpl map. simpl fold_left.
  unfold write_sep at 2. simpl is_empty. cbv iota.
  change ("" +:+ ("$" +:+ FormatInt (Z.of_nat 1) 16))
    with ("$" +:+ FormatInt (Z.of_nat 1) 16).
  rewrite (write_sep_fold (λ index, "$" +:+ FormatInt index 16)) by done.
  rewrite map_map. rewrite Split_join_tail; [done|].
  apply Forall_cons. split; [apply placeholder_plain|].
  apply Forall_forall. intros p [i [-> _]]%list_elem_of_fmap.
  apply placeholder_plain.
Qed.

(** X13. For one parameter or more the placeholder list splits at its
    commas into exactly one placeholder per parameter, the i-th being "$"
    followed by i written in base 16.  An id list of n values gets that list
    in both revisions, and so does a record of the same size: in the
    reflective revision a struct of n fields or a map of n members, in the
    later revision a struct of n fields with distinct JSON keys and, in
    general, every record whose JSON image has n members. *)
Theorem placeholders_one_per_parameter (vals : list value) (fs : list field) :
  vals ≠ [] →
  length fs = length vals →
  Split comma (Json.GenerateParameters (ASlice vals)) = placeholders (length vals)
  ∧ length (Split comma (Json.GenerateParameters (ASlice vals))) = length vals
  ∧ Reflect.GenerateParameters (ASlice vals)
    = Returns (Json.GenerateParameters (ASlice vals))
  ∧ Reflect.GenerateParameters (AStruct fs)
    = Returns (Json.GenerateParameters (ASlice vals))
  ∧ (∀ m : gmap string value, size m = length vals →
       Reflect.GenerateParameters (AMap m)
       = Returns (Json.GenerateParameters (ASlice vals)))
  ∧ (NoDup (map f_json fs) →
       Json.GenerateParameters (AStruct fs) = Json.GenerateParameters (ASlice vals))
  ∧ (∀ R items, Json.convertToMap R = Some items → size items = length vals →
       Json.GenerateParameters R = Json.GenerateParameters (ASlice vals)).
Proof.
  intros Hvals Hfs.
  assert (0 < length vals)%nat by (destruct vals; [done | simpl; lia]).
  assert (Hrecord : ∀ R items, Json.convertToMap R = Some items →
            size items = length vals →
            Json.GenerateParameters R = Json.GenerateParameters (ASlice vals)).
  { intros R items Hmap Hsize. unfold Json.GenerateParameters at 1.
    destruct R; try (by rewrite Hmap, Hsize). discriminate. }
  split; [|split; [|split; [|split; [|split; [|split]]]]].
  - simpl. by rewrite param_loop_split.
  - simpl. rewrite param_loop_split by done. unfold placeholders.
    by rewrite length_map, length_seq.
  - reflexivity.
  - simpl. unfold Reflect.generateParamString. by rewrite Hfs.
  - intros m Hsize. simpl. unfold Reflect.generateParamString. by rewrite Hsize.
  - intros Hkeys. eapply Hrecord; [reflexivity|].
    rewrite map_size_fmap, map_size_list_to_map.
    + by rewrite length_map.
    + by rewrite <- list_fmap_compose.
  - exact Hrecord.
Qed.

Lemma set_loop_stripped (names : list string) (index : Z) (acc : string) :
  Forall plain_name names → 0 <= index → is_empty acc = false →
  RemoveAll dquote (set_loop names index acc)
  = RemoveAll dquote acc +:+ join_tail id (assignments names index).
Proof.
  revert index acc. induction names as [|k rest IH]; intros index acc Hall Hi Hacc.
  - simpl. by rewrite append_nil_r.
  - inversion Hall as [|? ? [Hc Hq] Hrest]; subst. simpl set_loop.
    rewrite IH; [|done|lia|].
    + unfold write_sep. rewrite Hacc.
      rewrite !RemoveAll_append, RemoveAll_QuoteIdentifier by done.
      simpl.
      rewrite (RemoveAll_absent dquote (FormatInt index 16))
        by (by apply FormatInt_plain).
      unfold id at 2. rewrite !append_assoc. reflexivity.
    + unfold write_sep. rewrite Hacc. by do 2 apply is_empty_append.
Qed.

Lemma assignments_plain (names : list string) (index : Z) :
  Forall plain_name names → 0 <= index →
  Forall plain_name (assignments names index).
Proof.
  revert index. induction names as [|k rest IH]; intros index Hall Hi.
  - constructor.
  - inversion Hall as [|? ? Hk Hrest]; subst.
    change (assignments (k :: rest) index)
      with ((k +:+ "=$" +:+ FormatInt index 16) :: assignments rest (index + 1)).
    constructor.
    + apply plain_append; [done|].
      apply plain_append; [by split | by apply FormatInt_plain].
    + apply IH; [done | lia].
Qed.

(** A SET clause, stripped of its quotes and split at its commas, reads as
    the assignments of its names in order, numbered from 1. *)
Lemma set_clause_assignments (k : string) (rest : list string) :
  Forall plain_name (k :: rest) →
  Split comma (RemoveAll dquote (set_loop (k :: rest) 1 ""))
  = assignments (k :: rest) 1.
Proof.
  intros Hall. inversion Hall as [|? ? [Hc Hq] Hrest]; subst.
  assert (set_loop (k :: rest) 1 ""
          = set_loop rest (1 + 1) (QuoteIdentifier k +:+ "=$" +:+ FormatInt 1 16))
    as -> by reflexivity.
  rewrite set_loop_stripped; [|done|lia|by apply is_empty_append_r].
  rewrite RemoveAll_append, RemoveAll_QuoteIdentifier by done.
  rewrite (RemoveAll_absent dquote ("=$" +:+ FormatInt 1 16)) by reflexivity.
  rewrite Split_join_tail; [reflexivity|].
  change ((k +:+ "=$" +:+ FormatInt 1 16) :: assignments rest (1 + 1))
    with (assignments (k :: rest) 1).
  by apply assignments_plain.
Qed.

End Numbering.

Section Assignments.

Lemma set_columns_loop_clause (names : list string) (index : Z)
  (result col : string) :
  (Json.set_columns_loop names index result col).1 = set_loop names index result.
Proof.
  revert index result col.
  induction names as [|k rest IH]; intros index result col; simpl; [done|].
  rewrite IH. unfold write_sep. by destruct (is_empty result).
Qed.

Lemma set_columns_loop_columns (names : list string) (index : Z)
  (result col : string) :
  is_empty result = false →
  (Json.set_columns_loop names index result col).2
  = col +:+ join_tail QuoteIdentifier names.
Proof.
  revert index result col.
  induction names as [|k rest IH]; intros index result col Hresult; simpl.
  - by rewrite append_nil_r.
  - rewrite Hresult. simpl. rewrite IH by by do 2 apply is_empty_append.
    by rewrite !append_assoc.
Qed.

(** X14. GenerateSetParameters returns, with the SET clause, the column
    string GenerateColumns would write for the same traversal; for a record
    with plain, non-empty names the clause reads as the assignments of those
    names in that order numbered from 1, and GenerateValues on the returned
    columns gives, in the same order, what the record's JSON image holds
    under those names: an integer of the record arrives as the float64
    nearest to it. *)
Theorem SET_clause_matches_values (o : MapOrder) (R : any)
  (items : gmap string value) :
  fair o →
  Json.convertToMap R = Some items →
  items ≠ ∅ →
  (∀ name, name ∈ dom items → name ≠ "" ∧ plain_name name) →
  Split comma (RemoveAll dquote (Json.GenerateSetParameters o R).1)
  = assignments (o items) 1
  ∧ (Json.GenerateSetParameters o R).2 = Json.GenerateColumns o R
  ∧ Json.GenerateValues (Json.GenerateSetParameters o R).2 R
    = Returns (map (map_index items) (o items)).
Proof.
  intros Hfair Hmap Hne Hnames.
  destruct (GenerateValues_of_columns o R items) as (Hcols & _ & Hvals);
    [done..|].
  assert (Hall : ∀ name, name ∈ o items → name ≠ "" ∧ plain_name name)
    by (intros name Hin; eapply Hnames, fair_names; eauto).
  assert (Hsame : (Json.GenerateSetParameters o R).2 = Json.GenerateColumns o R).
  { rewrite Hcols. unfold Json.GenerateSetParameters. rewrite Hmap.
    destruct (o items) as [|k rest] eqn:Horder; [done|].
    assert (Hk : k ≠ "") by (apply Hall; left).
    rewrite columns_loop_cons by done. simpl.
    rewrite set_columns_loop_columns
      by (do 2 apply is_empty_append_r; reflexivity).
    reflexivity. }
  split; [|split; [exact Hsame | by rewrite Hsame]].
  unfold Json.GenerateSetParameters. rewrite Hmap, set_columns_loop_clause.
  destruct (o items) as [|k rest] eqn:Horder.
  { exfalso. apply Hne, map_size_empty_inv.
    by rewrite <- (fair_length o items Hfair), Horder. }
  apply set_clause_assignments, Forall_forall. intros x Hx. by apply Hall.
Qed.

End Assignments.

Section IdentifiedWrites.
Context `{Commons}.

Ltac exec_unfold := unfold mbind, Exec_bind, mret, Exec_ret, panic, lift, Query.

(** X15. Update of a struct sends one UPDATE whose SET clause assigns the
    fields in declaration order, numbered from 1, whose arguments are the
    field values in that order followed by the id, and whose WHERE
    placeholder carries the number of fields plus one. *)
Theorem Update_sends_fields_then_id (rt : Runtime)
  (c : Identifiable.IdentifiablePostgresPersistence) (cid : string)
  (item : any) (fs : list field) (pool : Pool) (j : list Stmt) :
  is_nil item = false →
  CloneObject item = AStruct fs →
  fs ≠ [] →
  Forall plain_name (map f_name fs) →
  Reflect.Client (Identifiable.base c) = Some pool →
  ∃ clause,
    (Identifiable.Update rt c cid item j).2
    = j ++ [("UPDATE " +:+ QuoteIdentifier (Reflect.TableName (Identifiable.base c))
             +:+ " SET " +:+ clause +:+ " WHERE " +:+ Identifiable.id_is "=$"
             +:+ FormatInt (Z.of_nat (length fs + 1)) 16 +:+ " RETURNING *",
             map f_value fs ++ [GetObjectId (AStruct fs)])]
    ∧ Split comma (RemoveAll dquote clause) = assignments (map f_name fs) 1.
Proof.
  intros Hitem Hclone Hfs Hplain Hclient.
  exists (set_loop (map f_name fs) 1 ""). split.
  - unfold Identifiable.Update. rewrite Hitem, Hclone.
    unfold Reflect.ConvertFromPublic. simpl. exec_unfold. rewrite Hclient.
    change (Reflect.GenerateValues (range_order rt 1) (AStruct fs))
      with (Returns (map f_value fs)).
    cbv beta iota. rewrite length_app, length_map. simpl.
    match goal with
    | |- context [pool ?q ?a] => destruct (pool q a) as [qResult [e|]]
    end; simpl; [done|].
    destruct (pending qResult) as [|[vals [e|]] more]; simpl; [done..|].
    destruct vals as [|v vals]; simpl; [done|].
    by destruct (Reflect.ConvertFromRows _ _ _).
  - destruct fs as [|f fs]; [done|]. by apply set_clause_assignments.
Qed.

(** X16. Create inserts the clone with the id generated for it, while Set
    inserts the item as the caller passed it: the arguments of its statement
    are the item's own field values, whatever id was generated. *)
Theorem Set_sends_the_callers_item (rt : Runtime)
  (c : Identifiable.IdentifiablePostgresPersistence) (cid : string)
  (fs gs : list field) (pool : Pool) (j : list Stmt) :
  Reflect.Client (Identifiable.base c) = Some pool →
  GenerateObjectId (CloneObject (AStruct fs)) = AStruct gs →
  (∃ q, (Identifiable.Set_ rt c cid (AStruct fs) j).2 = j ++ [(q, map f_value fs)])
  ∧ (∃ q, (Identifiable.Create rt c cid (AStruct fs) j).2
          = j ++ [(q, map f_value gs)]).
Proof.
  intros Hclient Hnew. split.
  - unfold Identifiable.Set_. unfold Reflect.ConvertFromPublic. simpl.
    exec_unfold. rewrite Hclient.
    change (Reflect.GenerateValues (range_order rt 2) (AStruct fs))
      with (Returns (map f_value fs)).
    cbv beta iota. eexists.
    match goal with
    | |- context [pool ?q ?a] => destruct (pool q a) as [qResult [e|]]
    end; simpl; [reflexivity|].
    destruct (pending qResult) as [|[vals [e|]] more]; simpl; [done..|].
    destruct vals as [|v vals]; simpl; [done|].
    by destruct (Reflect.ConvertFromRows _ _ _).
  - unfold Identifiable.Create, Reflect.Create. simpl. rewrite Hnew.
    unfold Reflect.ConvertFromPublic. simpl.
    exec_unfold. rewrite Hclient.
    change (Reflect.GenerateValues (range_order rt 1) (AStruct gs))
      with (Returns (map f_value gs)).
    cbv beta iota. eexists.
    match goal with
    | |- context [pool ?q ?a] => destruct (pool q a) as [qResult [e|]]
    end; simpl; [reflexivity|].
    destruct (pending qResult) as [|[vals [e|]] more]; simpl; [done..|].
    by destruct (Reflect.ConvertFromRows _ _ _).
Qed.

End IdentifiedWrites.

Section Descriptor.
Import Resolver.
Variable ParseConfig : string → ConnConfig + error.

Lemma is_empty_false (s : string) : s ≠ "" → is_empty s = false.
Proof. by destruct s. Qed.

Lemma is_empty_inv (s : string) : is_empty s = true → s = "".
Proof. by destruct s. Qed.

Lemma described_valid (cid : string) (conn : ConnectionParams) :
  described conn → validateConnection cid conn = Returns None.
Proof.
  intros (Huri & Hhost & Hport & d & Hdb & Hd). unfold validateConnection.
  rewrite Huri, (is_empty_false _ Hhost), Hdb, (is_empty_false _ Hd). simpl.
  by destruct (Z.eqb_spec (Port conn) 0).
Qed.

Lemma described_all_valid (cid : string) (conns : list ConnectionParams) :
  Forall described conns → validate_each cid conns = Returns None.
Proof.
  induction 1 as [|conn rest Hconn _ IH]; simpl; [done|].
  by rewrite (described_valid cid conn Hconn).
Qed.

Lemma compose_step_described (config : ConnConfig) (conn : ConnectionParams)
  (d : string) :
  Uri conn = "" → Host conn ≠ "" → Port conn ≠ 0 → Database conn = Some d →
  d ≠ "" →
  compose_step ParseConfig (config, None) conn
  = ({| cfg_Host := Host conn; cfg_Port := Port conn mod 65536;
        cfg_Database := d; cfg_User := cfg_User config;
        cfg_Password := cfg_Password config |}, None).
Proof.
  intros Huri Hhost Hport Hdb Hd. unfold compose_step.
  rewrite Huri, (is_empty_false _ Hhost), Hdb, (is_empty_false _ Hd). simpl.
  by destruct (Z.eqb_spec (Port conn) 0).
Qed.

Lemma compose_described (conns : list ConnectionParams) (config : ConnConfig) :
  Forall described conns →
  ∃ config', fold_left (compose_step ParseConfig) conns (config, None)
             = (config', None)
             ∧ cfg_User config' = cfg_User config
             ∧ cfg_Password config' = cfg_Password config.
Proof.
  intros Hall. revert config.
  induction Hall as [|conn rest (Huri & Hhost & Hport & d & Hdb & Hd) _ IH];
    intros config; cbn [fold_left].
  - by exists config.
  - rewrite (compose_step_described config conn d) by done.
    destruct (IH {| cfg_Host := Host conn; cfg_Port := Port conn mod 65536;
                    cfg_Database := d; cfg_User := cfg_User config;
                    cfg_Password := cfg_Password config |})
      as (config' & -> & Huser & Hpass).
    by exists config'.
Qed.

(** X17. For a list of entries without uri that all name host, port and
    database, Resolve returns a descriptor and no error; the descriptor has
    the host and the database of the last entry, its port cut to 16 bits,
    and the user name and password of the credential (empty without one):
    earlier entries leave no trace. *)
Theorem Resolve_takes_last_entry (cid : string) (front : list ConnectionParams)
  (last : ConnectionParams) (credential : option CredentialParams) :
  Forall described (front ++ [last]) →
  ∃ cfg,
    Resolve ParseConfig cid (front ++ [last], None) (credential, None)
    = Returns (Some cfg, None)
    ∧ cfg_Host cfg = Host last
    ∧ cfg_Port cfg = Port last mod 65536
    ∧ Database last = Some (cfg_Database cfg)
    ∧ cfg_User cfg = default "" (Username <$> credential)
    ∧ cfg_Password cfg = default "" (Password <$> credential).
Proof.
  intros Hall. unfold Resolve, validateConnections.
  rewrite bool_decide_eq_false_2 by (rewrite length_app; simpl; lia).
  rewrite (described_all_valid cid _ Hall). simpl.
  apply Forall_app in Hall as [Hfront Hlast].
  apply Forall_singleton in Hlast as (Huri & Hhost & Hport & d & Hdb & Hd).
  unfold composeConfig. rewrite fold_left_app. cbn [fold_left].
  destruct (compose_described front empty_config Hfront)
    as (config & -> & Huser & Hpass).
  rewrite (compose_step_described config last d) by done.
  destruct credential as [cred|]; simpl.
  - eexists. split; [reflexivity|]. simpl. rewrite Huser, Hpass. simpl.
    repeat split; try done.
    + destruct (is_empty (Username cred)) eqn:Hu; simpl; [|done].
      by apply is_empty_inv in Hu.
    + destruct (is_empty (Password cred)) eqn:Hp; simpl; [|done].
      by apply is_empty_inv in Hp.
  - eexists. split; [reflexivity|]. simpl. by rewrite Huser, Hpass.
Qed.

Lemma compose_port_bound (conns : list ConnectionParams) (config : ConnConfig)
  (e : option error) :
  (∀ u cfg, ParseConfig u = inl cfg → 0 <= cfg_Port cfg < 65536) →
  0 <= cfg_Port config < 65536 →
  0 <= cfg_Port (fold_left (compose_step ParseConfig) conns (config, e)).1 < 65536.
Proof.
  intros Hparse. revert config e.
  induction conns as [|conn rest IH]; intros config e Hconfig; cbn [fold_left];
    [done|].
  destruct (compose_step ParseConfig (config, e) conn) as [config' e'] eqn:Hstep.
  apply IH. unfold compose_step in Hstep.
  destruct (negb (is_empty (Uri conn))).
  - destruct (ParseConfig (Uri conn)) as [cfg|err] eqn:Hcfg;
      inversion Hstep; subst; simpl;
      destruct (negb (Port conn =? 0)); try done;
      try (by apply Z.mod_pos_bound); by eapply Hparse.
  - inversion Hstep; subst; simpl.
    destruct (negb (Port conn =? 0)); [by apply Z.mod_pos_bound | done].
Qed.

(** X18. Whatever the entries and the credential, the port of the composed
    descriptor fits 16 bits, provided the ports the driver parses do. *)
Theorem composed_port_fits_16_bits (conns : list ConnectionParams)
  (credential : option CredentialParams) :
  (∀ u cfg, ParseConfig u = inl cfg → 0 <= cfg_Port cfg < 65536) →
  0 <= cfg_Port (composeConfig ParseConfig conns credential).1 < 65536.
Proof.
  intros Hparse. unfold composeConfig.
  pose proof (compose_port_bound conns empty_config None Hparse) as Hbound.
  destruct (fold_left (compose_step ParseConfig) conns (empty_config, None))
    as [config e].
  simpl in Hbound. destruct credential; simpl; apply Hbound; done.
Qed.

Lemma compose_error_iff (conns : list ConnectionParams) (config : ConnConfig)
  (e : option error) :
  (fold_left (compose_step ParseConfig) conns (config, e)).2 = None
  ↔ e = None ∧ Forall (parses ParseConfig) conns.
Proof.
  revert config e.
  induction conns as [|conn rest IH]; intros config e; cbn [fold_left].
  - simpl. split; [by intros -> | by intros [-> _]].
  - destruct (compose_step ParseConfig (config, e) conn) as [config' e'] eqn:Hstep.
    rewrite IH, Forall_cons. unfold parses at 2.
    unfold compose_step in Hstep.
    destruct (is_empty (Uri conn)) eqn:Huri; simpl in Hstep.
    + apply is_empty_inv in Huri. inversion Hstep; subst. split.
      * intros [-> Hrest]. split; [done|]. split; [by left | done].
      * intros [-> [_ Hrest]]. done.
    + destruct (ParseConfig (Uri conn)) as [cfg|err] eqn:Hcfg;
        inversion Hstep; subst.
      * split.
        -- intros [-> Hrest]. split; [done|]. split; [right; by eexists | done].
        -- intros [-> [_ Hrest]]. done.
      * split; [by intros [? _]|].
        intros [_ [[Hempty | [cfg Hcfg']] _]].
        -- by rewrite Hempty in Huri.
        -- congruence.
Qed.

(** X19. Once validation and both lookups have succeeded Resolve always
    returns a descriptor; a uri the driver cannot parse adds an error to it
    but does not withhold it, and the error is nil exactly when every uri
    given parses. *)
Theorem parse_errors_do_not_withhold_descriptor (cid : string)
  (conns : list ConnectionParams) (credential : option CredentialParams) :
  validateConnections cid conns = Returns None →
  ∃ cfg e,
    Resolve ParseConfig cid (conns, None) (credential, None)
    = Returns (Some cfg, e)
    ∧ (e = None ↔ Forall (parses ParseConfig) conns).
Proof.
  intros Hvalid. unfold Resolve. rewrite Hvalid. simpl.
  pose proof (compose_error_iff conns empty_config None) as Hiff.
  unfold composeConfig.
  destruct (fold_left (compose_step ParseConfig) conns (empty_config, None))
    as [config e].
  simpl in Hiff.
  destruct credential; simpl; eexists _, e; (split; [reflexivity|]);
    rewrite Hiff; (split; [by intros [_ Hall] | by intros Hall]).
Qed.

End Descriptor.

Section JsonDocuments.
Context `{Commons}.

Ltac exec_unfold := unfold mbind, Exec_bind, mret, Exec_ret, panic, lift, Query.

(** X20. ConvertToPublic undoes ConvertFromPublic on every item, nil
    included; the row built for a non-nil item has exactly the members "id"
    and "data", the id being the one read from the item. *)
Theorem JsonColumn_round_trip (v : any) :
  JsonColumn.ConvertToPublic (JsonColumn.ConvertFromPublic v) = v
  ∧ (is_nil v = false →
     ∃ m, JsonColumn.ConvertFromPublic v = JsonColumn.Members m
          ∧ m !! "id" = Some (AVal (GetObjectId v))
          ∧ m !! "data" = Some v
          ∧ dom m = {["id"; "data"]}).
Proof.
  unfold JsonColumn.ConvertFromPublic. destruct (is_nil v) eqn:Hnil; split.
  - destruct v as [[| | | | |]| | | |]; simpl in Hnil; done.
  - done.
  - simpl. by rewrite lookup_insert_ne, lookup_insert_eq.
  - intros _. eexists. split; [reflexivity|].
    rewrite lookup_insert_eq, lookup_insert_ne, lookup_insert_eq by done.
    split; [done|]. split; [done|].
    rewrite !dom_insert_L, dom_empty_L. set_solver.
Qed.

(** X21. The JSON UpdatePartially returns (nil, nil) without touching the
    pool when the data is nil, whatever the id; given data it sends one
    statement whose first argument is the id, nil included, and whose second
    is the data as one document. *)
Theorem JsonColumn_UpdatePartially_guards_data_only
  (c : JsonColumn.IdentifiableJsonPostgresPersistence) (cid : string)
  (id : value) (j : list Stmt) :
  JsonColumn.UpdatePartially c cid id None j = (Returns (Item ANil, None), j)
  ∧ ∀ fields pool,
      Reflect.Client (Identifiable.base (JsonColumn.identifiable c)) = Some pool →
      ∃ q, (JsonColumn.UpdatePartially c cid id (Some fields) j).2
           = j ++ [(q, [id; VObj (map_to_list fields)])].
Proof.
  split; [done|]. intros fields pool Hclient.
  unfold JsonColumn.UpdatePartially. rewrite Hclient. exec_unfold. eexists.
  match goal with
  | |- context [pool ?q ?a] => destruct (pool q a) as [qResult [e|]]
  end; simpl; [reflexivity|].
  destruct (pending qResult) as [|[vals [e|]] more]; simpl; [done..|].
  destruct vals as [|v vals]; simpl; [done|].
  by destruct (Reflect.ConvertFromRows _ _ _).
Qed.

(** X22. EnsureTable falls back to TEXT and JSONB for empty types and
    registers one CREATE TABLE statement; on an engine with nothing else
    registered, provisioning against a pool whose probe finds no table sends
    the probe and then that statement, and the reflective revision returns
    nil whatever the pool answers to either. *)
Theorem EnsureTable_runs_after_probe
  (c : JsonColumn.IdentifiableJsonPostgresPersistence) (idType dataType cid : string)
  (pool : Pool) (qResult : Rows) (j : list Stmt) :
  let b := Identifiable.base (JsonColumn.identifiable c) in
  let b' := Identifiable.base
              (JsonColumn.identifiable (JsonColumn.EnsureTable c idType dataType)) in
  Reflect.autoObjects b = [] →
  Reflect.Client b = Some pool →
  pool ("SELECT to_regclass('" +:+ Reflect.TableName b +:+ "')") [] = (qResult, None) →
  pending qResult = [] →
  JsonColumn.EnsureTable c "" "" = JsonColumn.EnsureTable c "TEXT" "JSONB"
  ∧ ∃ ddl, Reflect.autoObjects b' = [ddl]
      ∧ Reflect.AutoCreateObjects b' cid j
        = (Returns None,
           j ++ [("SELECT to_regclass('" +:+ Reflect.TableName b +:+ "')", []);
                 (ddl, [])]).
Proof.
  intros b b' Hnone Hclient Hprobe Hrows. split; [reflexivity|].
  subst b b'. unfold JsonColumn.EnsureTable, Reflect.AutoCreateObjects. simpl.
  rewrite !Hnone. simpl. eexists. split; [reflexivity|].
  rewrite Hclient. exec_unfold. rewrite Hprobe, Hrows. simpl.
  by rewrite <- app_assoc.
Qed.

End JsonDocuments.

Section Absence.
Context `{Commons}.

Ltac exec_unfold := unfold mbind, Exec_bind, mret, Exec_ret, panic, lift, Query.

Ltac ask pool :=
  match goal with
  | Hnothing : finds_nothing pool |- context [pool ?q ?a] =>
      let Herr := fresh "Herr" in
      let Hrows := fresh "Hrows" in
      destruct (Hnothing q a) as [Herr Hrows];
      destruct (pool q a) as [qResult qErr]; simpl in Herr, Hrows; subst qErr;
      rewrite Hrows
  end.

(** X23. A statement that succeeds and finds no row is not an error: the
    reads and writes by id, and the upsert, return (nil, nil). *)
Theorem no_row_is_absent (rt : Runtime)
  (c : Identifiable.IdentifiablePostgresPersistence) (cid : string) (id : value)
  (fs : list field) (fields : gmap string value) (pool : Pool) (j : list Stmt) :
  Reflect.Client (Identifiable.base c) = Some pool →
  finds_nothing pool →
  CloneObject (AStruct fs) = AStruct fs →
  value_is_nil id = false →
  (Identifiable.GetOneById c cid id j).1 = Returns (Item ANil, None)
  ∧ (Identifiable.DeleteById c cid id j).1 = Returns (Item ANil, None)
  ∧ (Identifiable.Update rt c cid (AStruct fs) j).1 = Returns (Item ANil, None)
  ∧ (Identifiable.UpdatePartially rt c cid id (Some fields) j).1
    = Returns (Item ANil, None)
  ∧ (Identifiable.Set_ rt c cid (AStruct fs) j).1 = Returns (Item ANil, None)
  ∧ Identifiable.DeleteByIds c cid [id] j
    = (Returns None, j ++ [("DELETE FROM "
                            +:+ QuoteIdentifier (Reflect.TableName (Identifiable.base c))
                            +:+ " WHERE " +:+ Identifiable.id_is " IN($1)", [id])]).
Proof.
  intros Hclient Hnothing Hclone Hid.
  unfold Identifiable.GetOneById, Identifiable.DeleteById, Identifiable.Update,
    Identifiable.UpdatePartially, Identifiable.Set_, Identifiable.DeleteByIds.
  rewrite Hclone, Hid. unfold Reflect.ConvertFromPublic,
    Identifiable.ConvertFromPublicPartial, Reflect.ConvertFromPublic.
  simpl. exec_unfold. rewrite Hclient. simpl.
  split; [by ask pool|]. split; [by ask pool|]. split; [by ask pool|].
  split; [by ask pool|]. split; [by ask pool|]. by ask pool.
Qed.

End Absence.

Section FurtherExamples.
#[local] Existing Instance plain_commons.
#[local] Existing Instance sim_connection_api.

(** X1 on an engine whose connection comes up and whose table exists. *)
Lemma Open_success_binds_pool_witness :
  ∃ c' j',
    Json.Open (json_dummies_with (connection_to (provisioned_pool "dummies"))
                 [create_table]) "" []
    = (Returns (c', None), j')
    ∧ Json.IsOpen c' = true
    ∧ ∃ conn, Json.Connection c' = Some conn
        ∧ conn_IsOpen conn = true
        ∧ Json.Client c' = conn_GetConnection conn
        ∧ Json.DatabaseName c' = conn_GetDatabaseName conn.
Proof.
  destruct (Json.Open (json_dummies_with (connection_to (provisioned_pool "dummies"))
                         [create_table]) "" [])
    as [[[c' [e|]]|r] j'] eqn:Hrun.
  - vm_compute in Hrun. discriminate.
  - exists c', j'. split; [reflexivity|].
    apply (Open_success_binds_pool
             (json_dummies_with (connection_to (provisioned_pool "dummies"))
                [create_table]) c' "" [] j'); [reflexivity | exact Hrun].
  - vm_compute in Hrun. discriminate.
Defined.

(** X2 on an open engine whose connection closes without error. *)
Lemma Close_outcomes_witness :
  Json.opened (Json.Close (open_engine empty_table_pool []) "").1 = false
  ∧ Json.Client (Json.Close (open_engine empty_table_pool []) "").1 = None.
Proof.
  destruct (Close_outcomes (open_engine empty_table_pool [])
              (Json.Close (open_engine empty_table_pool []) "").1 ""
              (Json.Close (open_engine empty_table_pool []) "").2)
    as (_ & Hclosed & _); [by destruct (Json.Close _ _)|].
  destruct Hclosed as [Hopened Hclient]; [reflexivity|].
  split; [exact Hopened | by apply Hclient].
Defined.

(** X3 on a closed engine bound to a connection that is not open. *)
Lemma external_connection_untouched_witness :
  Json.Connection (Json.Close (guest_engine sleeping_connection) "").1
  = Some sleeping_connection
  ∧ ∃ c', Json.Open (guest_engine sleeping_connection) "" []
          = (Returns (c', Some (ConnectionError "CONNECT_FAILED"
                                  "PostgreSQL connection is not opened")), [])
          ∧ Json.IsOpen c' = false.
Proof.
  destruct (external_connection_untouched (guest_engine sleeping_connection)
              sleeping_connection "" []) as (_ & Hclose & Hopen);
    [reflexivity | reflexivity |].
  split; [exact Hclose|]. by apply Hopen.
Defined.

(** X4 on an engine with one registered statement and no table yet. *)
Lemma provisioning_journal_witness :
  Json.AutoCreateObjects (open_engine empty_table_pool [create_table]) "" []
  = (Returns None, [("SELECT to_regclass('dummies')", []); (create_table, [])]).
Proof.
  destruct (provisioning_journal (open_engine empty_table_pool [create_table])
              "" empty_table_pool no_rows []) as (_ & _ & Hrun);
    [reflexivity | reflexivity |].
  apply Hrun; [done | by left].
Defined.

(** X5 on a fresh engine. *)
Lemma repeated_SetReferences_disowns_connection_witness :
  Json.localConnection (Json.SetReferences json_dummies None None) = true
  ∧ Json.localConnection
      (Json.SetReferences (Json.SetReferences json_dummies None None) None None)
    = false.
Proof.
  destruct (repeated_SetReferences_disowns_connection json_dummies None "" [])
    as (Hfirst & Hsecond & _); [reflexivity | reflexivity |].
  split; [exact Hfirst | exact Hsecond].
Defined.

Lemma fair_canonical_keys : fair_keys canonical_keys.
Proof. by intros m. Qed.

(** X6 on an index over "key" marked ascending. *)
Lemma EnsureIndex_direction_witness :
  Json.autoObjects (Json.EnsureIndex canonical_keys json_dummies "idx"
                      {["key" := "1"]} None)
  = ["CREATE INDEX IF NOT EXISTS idx ON " +:+ QuoteIdentifier "dummies" +:+ "(key)"]
  ∧ Reflect.autoObjects (Reflect.EnsureIndex canonical_keys
                           (dummies_on empty_table_pool) "idx" {["key" := "1"]} None)
    = ["CREATE INDEX IF NOT EXISTS idx ON " +:+ QuoteIdentifier "dummies"
       +:+ "(" +:+ QuoteIdentifier "key" +:+ " DESC)"].
Proof.
  destruct (EnsureIndex_direction canonical_keys json_dummies
              (dummies_on empty_table_pool) "idx" "key" "1" fair_canonical_keys)
    as [Hjson Hreflect].
  split; [exact Hjson | exact Hreflect].
Defined.

(** X7 on the cursor of three rows whose second is unreadable: one item. *)
Lemma Reflect_list_stops_at_unreadable_row_witness :
  ∃ items,
    (Reflect.GetListByFilter (dummies_on mixed_pool) "" ANil ANil ANil []).1
    = Returns (items, None)
    ∧ length items = 1%nat.
Proof.
  destruct (Reflect_list_stops_at_unreadable_row (dummies_on mixed_pool) "" ANil
              ANil ANil mixed_pool []) as (q & _ & _ & Hrows); [reflexivity|].
  destruct (Hrows mixed_rows) as (items & Hrun & Hlen & _); [reflexivity | |].
  - intros r Hr Hok. vm_compute in Hr.
    repeat (apply elem_of_cons in Hr as [-> | Hr]; [simpl in *; try lia; done|]).
    by apply elem_of_nil in Hr.
  - by exists items.
Defined.

(** X8 on two ids over the same cursor. *)
Lemma GetListByIds_stops_at_unreadable_row_witness :
  ∃ q items,
    (Identifiable.GetListByIds (identifiable_on mixed_pool) ""
       [VStr "1"; VStr "2"] []).2
    = [(q, [VStr "1"; VStr "2"])]
    ∧ (Identifiable.GetListByIds (identifiable_on mixed_pool) ""
         [VStr "1"; VStr "2"] []).1
      = Returns (items, None)
    ∧ length items = 1%nat.
Proof.
  destruct (GetListByIds_stops_at_unreadable_row (identifiable_on mixed_pool) ""
              [VStr "1"; VStr "2"] mixed_pool []) as (q & Hsent & _ & Hrows);
    [reflexivity|].
  destruct (Hrows mixed_rows) as (items & Hrun & Hlen & _); [reflexivity | |].
  - intros r Hr Hok. vm_compute in Hr.
    repeat (apply elem_of_cons in Hr as [-> | Hr]; [simpl in *; try lia; done|]).
    by apply elem_of_nil in Hr.
  - by exists q, items.
Defined.

(** X9 on the same cursor: two items, the second nil, and the failure of
    the second row as the error. *)
Lemma Json_list_ends_with_nil_at_unreadable_row_witness :
  ∃ items,
    (Json.GetListByFilter (json_dummies_on mixed_pool) "" ANil ANil ANil []).1
    = Returns (items, Some (DriverError "cannot decode row"))
    ∧ length items = 2%nat
    ∧ items !! 1%nat = Some ANil.
Proof.
  destruct (Json_list_ends_with_nil_at_unreadable_row (json_dummies_on mixed_pool)
              "" ANil ANil ANil mixed_pool []) as (q & _ & Hrows);
    [reflexivity | reflexivity |].
  destruct (Hrows mixed_rows) as (items & err & Hrun & _ & _ & Hcut);
    [reflexivity | |].
  - intros r Hr Hok. vm_compute in Hr.
    repeat (apply elem_of_cons in Hr as [-> | Hr]; [simpl in *; try lia; done|]).
    by apply elem_of_nil in Hr.
  - destruct (Hcut (DriverError "cannot decode row")) as (Hlen & Hnil & ->);
      [reflexivity|].
    by exists items.
Defined.

(** X10 on a filter that is a number. *)
Lemma non_text_filter_is_no_filter_witness :
  Json.GetCountByFilter (json_dummies_on empty_table_pool) "" (AVal (VInt 5)) []
  = Json.GetCountByFilter (json_dummies_on empty_table_pool) "" ANil [].
Proof.
  destruct (non_text_filter_is_no_filter fixed_runtime
              (json_dummies_on empty_table_pool) (dummies_on empty_table_pool)
              "" (AVal (VInt 5)) ANil ANil []) as [Hcount _]; [|exact Hcount].
  intros s Hs. discriminate Hs.
Defined.

(** X11 on a page read without paging parameters. *)
Lemma page_without_total_has_zero_total_witness :
  ∃ q, (Json.GetPageByFilter (json_dummies_on mixed_pool) "" ANil None ANil ANil
          []).2 = [(q, [])].
Proof.
  destruct (page_without_total_has_zero_total (json_dummies_on mixed_pool) ""
              ANil None ANil ANil mixed_pool []) as (q & Hsent & _);
    [reflexivity | reflexivity |].
  by exists q.
Defined.

(** X12 on the table "dummies". *)
Lemma Clear_guards_table_name_witness :
  (Json.Clear (json_dummies_on empty_table_pool) "" []).2
  = (Json.DeleteByFilter (json_dummies_on empty_table_pool) "" "" []).2.
Proof.
  destruct (Clear_guards_table_name (json_dummies_on empty_table_pool) "" [])
    as (_ & Hsame & _).
  by apply Hsame.
Defined.

(** X13 on ten parameters, and on a struct of two fields. *)
Lemma placeholders_one_per_parameter_witness :
  length (Split comma (Json.GenerateParameters (ASlice ten_values))) = 10%nat
  ∧ Json.GenerateParameters (AStruct two_fields)
    = Json.GenerateParameters (ASlice [VStr "1"; VStr "k"])
  ∧ Reflect.GenerateParameters (AStruct two_fields)
    = Returns (Json.GenerateParameters (ASlice [VStr "1"; VStr "k"])).
Proof.
  destruct (placeholders_one_per_parameter ten_values ten_fields)
    as (_ & Hlen & _); [done | reflexivity |].
  destruct (placeholders_one_per_parameter [VStr "1"; VStr "k"] two_fields)
    as (_ & _ & _ & Hreflect & _ & Hjson & _); [done | reflexivity |].
  split; [exact Hlen|]. split; [|exact Hreflect].
  apply Hjson. simpl. apply NoDup_cons. split; [|apply NoDup_singleton].
  intros Hin. apply list_elem_of_singleton in Hin. discriminate Hin.
Defined.

(** X14 on the record whose "Id" is 2^53 + 1: the value that goes with the
    clause is the float64 2^53. *)
Lemma SET_clause_matches_values_witness :
  Split comma (RemoveAll dquote (Json.GenerateSetParameters canonical_order large_id).1)
  = ["Id=$1"]
  ∧ Json.GenerateValues (Json.GenerateSetParameters canonical_order large_id).2
      large_id
    = Returns [VFloat 9007199254740992].
Proof.
  destruct (SET_clause_matches_values canonical_order large_id
              (<["Id" := VFloat 9007199254740992]> ∅))
    as (Hclause & _ & Hvalues);
    [exact fair_canonical | reflexivity | | | split; [exact Hclause | exact Hvalues]].
  - intros Hempty. apply (f_equal (λ m : gmap string value, m !! "Id")) in Hempty.
    vm_compute in Hempty. discriminate.
  - intros name Hin. rewrite !dom_insert_L, dom_empty_L in Hin.
    apply elem_of_union in Hin as [Hin | Hin].
    + apply elem_of_singleton in Hin as ->. split; [done | split; reflexivity].
    + by apply elem_of_empty in Hin.
Defined.

(** X15 on a struct of two fields. *)
Lemma Update_sends_fields_then_id_witness :
  ∃ q, (Identifiable.Update fixed_runtime (identifiable_on empty_table_pool) ""
          (AStruct two_fields) []).2
       = [(q, [VStr "1"; VStr "k"; VNil])].
Proof.
  destruct (Update_sends_fields_then_id fixed_runtime
              (identifiable_on empty_table_pool) "" (AStruct two_fields)
              two_fields empty_table_pool []) as (clause & Hsent & _);
    [reflexivity | reflexivity | done | | reflexivity |].
  - repeat constructor.
  - eexists. exact Hsent.
Defined.

(** X16 on the same struct. *)
Lemma Set_sends_the_callers_item_witness :
  ∃ q, (Identifiable.Set_ fixed_runtime (identifiable_on empty_table_pool) ""
          (AStruct two_fields) []).2
       = [(q, [VStr "1"; VStr "k"])].
Proof.
  destruct (Set_sends_the_callers_item fixed_runtime
              (identifiable_on empty_table_pool) "" two_fields two_fields
              empty_table_pool []) as [[q Hsent] _]; [reflexivity | reflexivity |].
  by exists q.
Defined.

Lemma examples_described : Forall described ([primary] ++ [replica]).
Proof.
  repeat constructor; try done; by eexists.
Qed.

(** X17 on two entries: the descriptor is the second one's, its port 65537
    cut to 1. *)
Lemma Resolve_takes_last_entry_witness :
  ∃ cfg,
    Resolver.Resolve no_parse "" ([primary] ++ [replica], None) (Some admin, None)
    = Returns (Some cfg, None)
    ∧ Resolver.cfg_Host cfg = "db2"
    ∧ Resolver.cfg_Port cfg = 1
    ∧ Resolver.cfg_User cfg = "admin".
Proof.
  destruct (Resolve_takes_last_entry no_parse "" [primary] replica (Some admin)
              examples_described)
    as (cfg & Hrun & Hhost & Hport & _ & Huser & _).
  exists cfg. split; [exact Hrun|]. split; [exact Hhost|].
  split; [exact Hport | exact Huser].
Defined.

(** X18 with a driver that parses nothing. *)
Lemma composed_port_fits_16_bits_witness :
  0 <= Resolver.cfg_Port
         (Resolver.composeConfig no_parse [primary; replica] (Some admin)).1
  < 65536.
Proof.
  apply (composed_port_fits_16_bits no_parse [primary; replica] (Some admin)).
  intros u cfg Hparse. discriminate Hparse.
Defined.

(** X19 on an entry given by a uri the driver cannot parse. *)
Lemma parse_errors_do_not_withhold_descriptor_witness :
  ∃ cfg e,
    Resolver.Resolve no_parse "" ([by_uri], None) (None, None)
    = Returns (Some cfg, e).
Proof.
  destruct (parse_errors_do_not_withhold_descriptor no_parse "" [by_uri] None)
    as (cfg & e & Hrun & _); [reflexivity|].
  by exists cfg, e.
Defined.

(** X22 on an engine with nothing registered and no table. *)
Lemma EnsureTable_runs_after_probe_witness :
  JsonColumn.EnsureTable (json_column_on empty_table_pool) "" ""
  = JsonColumn.EnsureTable (json_column_on empty_table_pool) "TEXT" "JSONB".
Proof.
  destruct (EnsureTable_runs_after_probe (json_column_on empty_table_pool) "" ""
              "" empty_table_pool no_rows []) as [Hdefault _];
    [reflexivity | reflexivity | reflexivity | reflexivity |].
  exact Hdefault.
Defined.

(** X23 on the table without rows, read with a pool that finds nothing. *)
Lemma no_row_is_absent_witness :
  (Identifiable.GetOneById (identifiable_on (λ _ _, (no_rows, None))) ""
     (VStr "1") []).1
  = Returns (Item ANil, None).
Proof.
  destruct (no_row_is_absent fixed_runtime
              (identifiable_on (λ _ _, (no_rows, None))) "" (VStr "1")
              two_fields ∅ (λ _ _, (no_rows, None)) []) as [Hget _];
    [reflexivity | by split | reflexivity | reflexivity |].
  exact Hget.
Defined.

End FurtherExamples.
